(** * FinoAddWise backend: the response normalisation core

    A shallow embedding of the fallback-aware normalisation logic of
    [app/services/financial_agent.py] and [app/services/rag_service.py],
    with the properties of the specification stated over it.

    Modelling conventions.
    - A Python object reachable from [json.loads] is a [value]: [None],
      [bool], [int], [float], [str], [list] and [dict] with string keys.
      A dict is an association list in insertion order without repeated
      keys; the values handed to the services are trees (the JSON reader
      never shares a container), so in-place mutation of a nested dict is
      modelled by rebuilding the path to it.
    - Finite floats are exact rationals: rounding and overflow of IEEE
      doubles are not modelled.  The non-finite floats, which the JSON
      reader of Python accepts as [NaN], [Infinity] and [-Infinity], are
      kept as separate constructors.
    - A Python [str] is a Rocq [string]; the text functions are exact on
      ASCII text (a character above 127 is neither a word character, a
      digit nor white space, and has no other case).
    - A [try] block that mutates its argument and whose handler returns
      that argument is modelled by returning the state reached together
      with a flag telling whether an exception escaped. *)

From Stdlib Require Import ZArith QArith Qround Qabs Lqa List String Ascii Bool Lia.
From Stdlib Require Import DecimalString.
Import ListNotations.

Local Open Scope string_scope.

(** ** Python floats *)

Module PyFloat.

Inductive pyfloat : Type :=
| Fin (q : Q)
| PosInf
| NegInf
| NaN.

Definition Qltb (x y : Q) : bool := negb (Qle_bool y x).

Definition of_Z (z : Z) : pyfloat := Fin (inject_Z z).

Definition fneg (a : pyfloat) : pyfloat :=
  match a with
  | Fin q => Fin (Qred (- q))
  | PosInf => NegInf
  | NegInf => PosInf
  | NaN => NaN
  end.

Definition fadd (a b : pyfloat) : pyfloat :=
  match a, b with
  | NaN, _ | _, NaN => NaN
  | Fin x, Fin y => Fin (Qred (x + y))
  | PosInf, NegInf | NegInf, PosInf => NaN
  | PosInf, _ | _, PosInf => PosInf
  | NegInf, _ | _, NegInf => NegInf
  end.

Definition fsub (a b : pyfloat) : pyfloat := fadd a (fneg b).

(** Sign of a float: [Some true] positive, [Some false] negative,
    [None] for zero and NaN. *)
Definition fsign (a : pyfloat) : option bool :=
  match a with
  | Fin q => if Qltb 0 q then Some true
             else if Qltb q 0 then Some false else None
  | PosInf => Some true
  | NegInf => Some false
  | NaN => None
  end.

Definition signed_inf (positive : bool) : pyfloat :=
  if positive then PosInf else NegInf.

Definition fmul (a b : pyfloat) : pyfloat :=
  match a, b with
  | NaN, _ | _, NaN => NaN
  | Fin x, Fin y => Fin (Qred (x * y))
  | _, _ =>
      match fsign a, fsign b with
      | Some sa, Some sb => signed_inf (Bool.eqb sa sb)
      | _, _ => NaN
      end
  end.

(** True division; [None] is [ZeroDivisionError]. *)
Definition fdiv (a b : pyfloat) : option pyfloat :=
  match a, b with
  | _, Fin y =>
      if Qeq_bool y 0 then None
      else match a with
           | Fin x => Some (Fin (Qred (x / y)))
           | NaN => Some NaN
           | _ => match fsign a, fsign b with
                  | Some sa, Some sb => Some (signed_inf (Bool.eqb sa sb))
                  | _, _ => Some NaN
                  end
           end
  | NaN, _ | _, NaN => Some NaN
  | Fin _, _ => Some (Fin 0)
  | _, _ => Some NaN
  end.

Definition flt (a b : pyfloat) : bool :=
  match a, b with
  | NaN, _ | _, NaN => false
  | Fin x, Fin y => Qltb x y
  | NegInf, NegInf | PosInf, _ => false
  | NegInf, _ => true
  | Fin _, PosInf => true
  | Fin _, NegInf => false
  end.

Definition fabs (a : pyfloat) : pyfloat :=
  match a with
  | Fin q => Fin (Qabs q)
  | NaN => NaN
  | _ => PosInf
  end.

(** [bool(x)] of a float: only zero is false. *)
Definition ftruth (a : pyfloat) : bool :=
  match a with
  | Fin q => negb (Qeq_bool q 0)
  | _ => true
  end.

(** Nearest integer, ties to the even one. *)
Definition round_half_even (q : Q) : Z :=
  let n := Qfloor q in
  let r := (q - inject_Z n)%Q in
  if Qltb r (1 # 2) then n
  else if Qltb (1 # 2) r then (n + 1)%Z
  else if Z.even n then n else (n + 1)%Z.

(** [round(x, 1)]. *)
Definition round1 (a : pyfloat) : pyfloat :=
  match a with
  | Fin q => Fin (Qred (inject_Z (round_half_even (q * 10)) / 10))
  | _ => a
  end.

End PyFloat.
Import PyFloat.

(** ** Python values *)

#[local] Unset Elimination Schemes.

Inductive value : Type :=
| VNone
| VBool (b : bool)
| VInt (z : Z)
| VFloat (f : pyfloat)
| VStr (s : string)
| VList (l : list value)
| VDict (d : list (string * value)).

#[local] Set Elimination Schemes.

Definition dict : Type := list (string * value).

Fixpoint dict_get (k : string) (d : dict) : option value :=
  match d with
  | [] => None
  | (k', v) :: rest => if String.eqb k k' then Some v else dict_get k rest
  end.

(** [d[k] = v]: an existing key keeps its position, a new key goes last. *)
Fixpoint dict_set (k : string) (v : value) (d : dict) : dict :=
  match d with
  | [] => [(k, v)]
  | (k', v') :: rest =>
      if String.eqb k k' then (k', v) :: rest
      else (k', v') :: dict_set k v rest
  end.

(** [dict(pairs)]. *)
Definition dict_of_pairs (pairs : list (string * value)) : dict :=
  fold_left (fun d kv => dict_set (fst kv) (snd kv) d) pairs [].

(** *** Numbers: [int], [bool] (an [int] subtype) and [float] *)

Inductive number : Type :=
| NInt (z : Z)
| NFloat (f : pyfloat).

Definition as_number (v : value) : option number :=
  match v with
  | VBool b => Some (NInt (if b then 1 else 0))
  | VInt z => Some (NInt z)
  | VFloat f => Some (NFloat f)
  | _ => None
  end.

Definition of_number (n : number) : value :=
  match n with
  | NInt z => VInt z
  | NFloat f => VFloat f
  end.

Definition to_float (n : number) : pyfloat :=
  match n with
  | NInt z => of_Z z
  | NFloat f => f
  end.

Definition num_add (a b : number) : number :=
  match a, b with
  | NInt x, NInt y => NInt (x + y)
  | _, _ => NFloat (fadd (to_float a) (to_float b))
  end.

Definition num_sub (a b : number) : number :=
  match a, b with
  | NInt x, NInt y => NInt (x - y)
  | _, _ => NFloat (fsub (to_float a) (to_float b))
  end.

Definition num_mul (a b : number) : number :=
  match a, b with
  | NInt x, NInt y => NInt (x * y)
  | _, _ => NFloat (fmul (to_float a) (to_float b))
  end.

Definition num_abs (a : number) : number :=
  match a with
  | NInt x => NInt (Z.abs x)
  | NFloat f => NFloat (fabs f)
  end.

Definition num_lt (a b : number) : bool :=
  match a, b with
  | NInt x, NInt y => Z.ltb x y
  | _, _ => flt (to_float a) (to_float b)
  end.

Definition num_gt (a b : number) : bool := num_lt b a.

(** Binary operators on values; [None] is [TypeError]. *)
Definition py_binop {A : Type} (op : number -> number -> A) (a b : value)
  : option A :=
  match as_number a, as_number b with
  | Some x, Some y => Some (op x y)
  | _, _ => None
  end.

Definition py_mul (a b : value) : option value :=
  option_map of_number (py_binop num_mul a b).

Definition py_lt (a b : value) : option bool := py_binop num_lt a b.
Definition py_gt (a b : value) : option bool := py_binop num_gt a b.

(** *** Container operations; [None] is the exception Python raises *)

Fixpoint is_prefix (p s : string) : bool :=
  match p, s with
  | EmptyString, _ => true
  | String a p', String b s' => Ascii.eqb a b && is_prefix p' s'
  | String _ _, EmptyString => false
  end.

Fixpoint is_substring (p s : string) : bool :=
  is_prefix p s
  || match s with
     | EmptyString => false
     | String _ s' => is_substring p s'
     end.

Definition is_str (k : string) (v : value) : bool :=
  match v with
  | VStr s => String.eqb s k
  | _ => false
  end.

(** [k in v] for a string [k]. *)
Definition py_contains (v : value) (k : string) : option bool :=
  match v with
  | VDict d => Some (match dict_get k d with Some _ => true | None => false end)
  | VList l => Some (existsb (is_str k) l)
  | VStr s => Some (is_substring k s)
  | _ => None
  end.

(** [v[k]] for a string [k]: [KeyError] on a dict without [k],
    [TypeError] on every other value. *)
Definition py_getitem (v : value) (k : string) : option value :=
  match v with
  | VDict d => dict_get k d
  | _ => None
  end.

(** [v.get(k, default)]: only a dict has the method. *)
Definition py_get (v : value) (k : string) (default : value) : option value :=
  match v with
  | VDict d => Some (match dict_get k d with Some x => x | None => default end)
  | _ => None
  end.

(** [v[k] = x]. *)
Definition py_setitem (v : value) (k : string) (x : value) : option value :=
  match v with
  | VDict d => Some (VDict (dict_set k x d))
  | _ => None
  end.

Fixpoint chars_of (s : string) : list value :=
  match s with
  | EmptyString => []
  | String c s' => VStr (String c EmptyString) :: chars_of s'
  end.

(** The items a [for] loop over [v] visits. *)
Definition py_iter (v : value) : option (list value) :=
  match v with
  | VList l => Some l
  | VDict d => Some (map (fun kv => VStr (fst kv)) d)
  | VStr s => Some (chars_of s)
  | _ => None
  end.


(** ** Text: [str] methods and the [re] patterns of the services *)

Module Text.

Definition code (c : ascii) : N := N_of_ascii c.

Definition in_range (lo hi : N) (c : ascii) : bool :=
  (N.leb lo (code c) && N.leb (code c) hi)%bool.

Definition is_digit (c : ascii) : bool := in_range 48 57 c.
Definition is_upper (c : ascii) : bool := in_range 65 90 c.
Definition is_lower (c : ascii) : bool := in_range 97 122 c.

(** [\w] on ASCII text. *)
Definition is_word (c : ascii) : bool :=
  is_digit c || is_upper c || is_lower c || Ascii.eqb c "_".

(** [.] without [re.DOTALL]: anything but a line feed. *)
Definition is_dot_char (c : ascii) : bool := negb (N.eqb (code c) 10).

Definition dquote : ascii := "034"%char.
Definition backslash : ascii := "092"%char.


Definition is_dquote (c : ascii) : bool := Ascii.eqb c dquote.
Definition is_quote (c : ascii) : bool := is_dquote c || Ascii.eqb c "'".
Definition not_dquote (c : ascii) : bool := negb (is_dquote c).
Definition is_point (c : ascii) : bool := Ascii.eqb c ".".

(** What [str.strip] removes: the ASCII white space of [str.isspace]. *)
Definition is_space (c : ascii) : bool :=
  in_range 9 13 c || in_range 28 32 c.

Definition lower (c : ascii) : ascii :=
  if is_upper c then ascii_of_N (code c + 32) else c.

Definition is_empty (s : string) : bool :=
  match s with
  | EmptyString => true
  | String _ _ => false
  end.

Fixpoint lstrip (s : string) : string :=
  match s with
  | String c s' => if is_space c then lstrip s' else s
  | EmptyString => EmptyString
  end.

Fixpoint rstrip (s : string) : string :=
  match s with
  | String c s' =>
      let t := rstrip s' in
      if is_empty t && is_space c then EmptyString else String c t
  | EmptyString => EmptyString
  end.

(** [s.strip()] *)
Definition strip (s : string) : string := rstrip (lstrip s).

(** *** Backtracking matchers

    A matcher takes the continuation that matches the rest of the
    pattern and the text at the current position; it tries its
    alternatives in the order of Python's [re] engine and answers with
    the first one the continuation accepts. *)

Section Matchers.

Context {A : Type}.

Definition matcher : Type := (string -> option A) -> string -> option A.

(** One character of a class. *)
Definition chr (p : ascii -> bool) : matcher :=
  fun k s =>
    match s with
    | String c s' => if p c then k s' else None
    | EmptyString => None
    end.

(** A literal, compared after [fold] ([lower] under [re.IGNORECASE]). *)
Fixpoint lit (fold : ascii -> ascii) (w : string) : matcher :=
  fun k s =>
    match w with
    | EmptyString => k s
    | String a w' => chr (fun c => Ascii.eqb (fold c) (fold a)) (lit fold w' k) s
    end.

(** [p*]: the longest run first, then shorter ones. *)
Fixpoint star (p : ascii -> bool) (k : string -> option A) (s : string)
  : option A :=
  match s with
  | String c s' =>
      if p c then
        match star p k s' with
        | Some a => Some a
        | None => k s
        end
      else k s
  | EmptyString => k s
  end.

(** [p+] *)
Definition plus (p : ascii -> bool) : matcher :=
  fun k => chr p (star p k).

(** [p?] *)
Definition opt (p : ascii -> bool) : matcher :=
  fun k s =>
    match s with
    | String c s' =>
        if p c then
          match k s' with
          | Some a => Some a
          | None => k s
          end
        else k s
    | EmptyString => k s
    end.

(** [p*?]: the shortest run first, then longer ones. *)
Fixpoint star_lazy (p : ascii -> bool) (k : string -> option A) (s : string)
  : option A :=
  match k s with
  | Some a => Some a
  | None =>
      match s with
      | String c s' => if p c then star_lazy p k s' else None
      | EmptyString => None
      end
  end.

(** The text between the position [s] and the later position [rest]. *)
Definition consumed (s rest : string) : string :=
  substring 0 (String.length s - String.length rest) s.

(** A capturing group around [m]; the continuation receives the text
    the group matched. *)
Definition group (m : matcher) (k : string -> string -> option A) (s : string)
  : option A :=
  m (fun rest => k (consumed s rest) rest) s.

(** [re.search]: the first position at which the pattern matches. *)
Fixpoint search (pattern : string -> option A) (s : string) : option A :=
  match pattern s with
  | Some a => Some a
  | None =>
      match s with
      | String _ s' => search pattern s'
      | EmptyString => None
      end
  end.

End Matchers.

(** [re.findall] for a pattern with one group: the pattern answers with
    the group and the position after the match; scanning resumes there,
    [skip] counting the characters of the match still to pass. *)
Fixpoint findall_from (pattern : string -> option (string * string))
  (skip : nat) (s : string) : list string :=
  match skip with
  | S n =>
      match s with
      | String _ s' => findall_from pattern n s'
      | EmptyString => []
      end
  | O =>
      match pattern s with
      | Some (g, rest) =>
          g :: match s with
               | String _ s' =>
                   findall_from pattern
                     (String.length s - String.length rest - 1) s'
               | EmptyString => []
               end
      | None =>
          match s with
          | String _ s' => findall_from pattern 0 s'
          | EmptyString => []
          end
      end
  end.

Definition findall (pattern : string -> option (string * string)) (s : string)
  : list string :=
  findall_from pattern 0 s.

(** *** [float(s)] on an unsigned decimal literal

    The digits before and after an optional point.  [None] stands for
    [ValueError]; the model is faithful only on literals of this shape,
    which is the only shape the confidence pattern captures. *)

Definition digit_value (c : ascii) : Z := Z.of_N (code c - 48).

Fixpoint digits_of (acc : Z) (s : string) : Z * string :=
  match s with
  | String c s' =>
      if is_digit c then digits_of (10 * acc + digit_value c) s' else (acc, s)
  | EmptyString => (acc, s)
  end.

Fixpoint count_digits (s : string) : nat :=
  match s with
  | String c s' => if is_digit c then S (count_digits s') else O
  | EmptyString => O
  end.

Definition pow10 (n : nat) : Z := Z.pow 10 (Z.of_nat n).

Definition float_of_decimal (s : string) : option pyfloat :=
  let (int_part, rest) := digits_of 0 s in
  match rest with
  | EmptyString =>
      if is_empty s then None else Some (of_Z int_part)
  | String c frac =>
      if is_point c then
        let n := count_digits frac in
        let (mantissa, rest') := digits_of int_part frac in
        if is_empty rest' && negb (Nat.eqb (count_digits s + n) 0) then
          Some (Fin (Qred (inject_Z mantissa / inject_Z (pow10 n))))
        else None
      else None
  end.

End Text.

(** ** The JSON reader: [json.loads]

    Python's [json.decoder] and [json.scanner] with their default
    settings: the JSON grammar, white space being space, tab, line feed
    and carriage return, plus the constants [NaN], [Infinity] and
    [-Infinity].  The recursion limit of the interpreter is not modelled. *)

Module Json.

Import Text.

Inductive scan (A : Type) : Type :=
| Scanned (a : A) (rest : string)
| Invalid
| Exhausted.

Arguments Scanned {A} a rest.
Arguments Invalid {A}.
Arguments Exhausted {A}.

Definition is_ws (c : ascii) : bool :=
  let n := code c in
  N.eqb n 32 || N.eqb n 9 || N.eqb n 10 || N.eqb n 13.

Fixpoint skip_ws (s : string) : string :=
  match s with
  | String c s' => if is_ws c then skip_ws s' else s
  | EmptyString => EmptyString
  end.

Fixpoint drop (n : nat) (s : string) : string :=
  match n, s with
  | S m, String _ s' => drop m s'
  | _, _ => s
  end.

(** *** Strings *)

Definition hex_value (c : ascii) : option N :=
  if is_digit c then Some (code c - 48)%N
  else if in_range 97 102 c then Some (code c - 87)%N
  else if in_range 65 70 c then Some (code c - 55)%N
  else None.

Fixpoint hex_digits (n : nat) (acc : N) (s : string) : option (N * string) :=
  match n with
  | O => Some (acc, s)
  | S m =>
      match s with
      | String c s' =>
          match hex_value c with
          | Some h => hex_digits m (16 * acc + h)%N s'
          | None => None
          end
      | EmptyString => None
      end
  end.

Definition byte (n : N) : string := String (ascii_of_N n) EmptyString.

(** The character [chr(n)], as its UTF-8 bytes. *)
Definition utf8 (n : N) : string :=
  if (n <? 128)%N then byte n
  else if (n <? 2048)%N then
    byte (192 + n / 64) ++ byte (128 + n mod 64)
  else if (n <? 65536)%N then
    byte (224 + n / 4096) ++ byte (128 + (n / 64) mod 64)
    ++ byte (128 + n mod 64)
  else
    byte (240 + n / 262144) ++ byte (128 + (n / 4096) mod 64)
    ++ byte (128 + (n / 64) mod 64) ++ byte (128 + n mod 64).

(** The escape whose text follows a backslash: the characters it stands
    for and the number of characters it takes. *)
Definition escape (s : string) : option (string * nat) :=
  match s with
  | EmptyString => None
  | String e r =>
      let one (n : N) := Some (byte n, 1%nat) in
      if Ascii.eqb e dquote then one 34%N
      else if Ascii.eqb e backslash then one 92%N
      else if Ascii.eqb e "/" then one 47%N
      else if Ascii.eqb e "b" then one 8%N
      else if Ascii.eqb e "f" then one 12%N
      else if Ascii.eqb e "n" then one 10%N
      else if Ascii.eqb e "r" then one 13%N
      else if Ascii.eqb e "t" then one 9%N
      else if Ascii.eqb e "u" then
        match hex_digits 4 0 r with
        | None => None
        | Some (u, r') =>
            if ((55296 <=? u) && (u <=? 56319))%N && is_prefix (String backslash "u") r' then
              match hex_digits 4 0 (drop 2 r') with
              | None => None
              | Some (u2, _) =>
                  if ((56320 <=? u2) && (u2 <=? 57343))%N then
                    Some (utf8 (65536 + (u - 55296) * 1024 + (u2 - 56320)),
                          11%nat)
                  else Some (utf8 u, 5%nat)
              end
            else Some (utf8 u, 5%nat)
        end
      else None
  end.

(** [scanstring], from the character after the opening quote: the
    decoded text and the position after the closing quote.  [skip]
    counts the characters of an escape still to pass. *)
Fixpoint scanstring_from (skip : nat) (s : string) : option (string * string) :=
  match s with
  | EmptyString => None
  | String c s' =>
      match skip with
      | S n => scanstring_from n s'
      | O =>
          if is_dquote c then Some (EmptyString, s')
          else if Ascii.eqb c backslash then
            match escape s' with
            | None => None
            | Some (t, n) =>
                match scanstring_from n s' with
                | Some (u, rest) => Some (t ++ u, rest)
                | None => None
                end
            end
          else if (code c <? 32)%N then None
          else
            match scanstring_from 0 s' with
            | Some (u, rest) => Some (String c u, rest)
            | None => None
            end
      end
  end.

Definition scanstring (s : string) : option (string * string) :=
  scanstring_from 0 s.

(** *** Numbers: [NUMBER_RE], an optional minus sign and an integer
    part, then an optional fraction and an optional exponent *)

Definition starts_with_digit (s : string) : bool :=
  match s with
  | String c _ => is_digit c
  | EmptyString => false
  end.

(** The integer part: a single [0], or a run of digits not starting
    with [0]. *)
Definition scan_integer (s : string) : option (Z * string) :=
  match s with
  | String c s' =>
      if Ascii.eqb c "0" then Some (0%Z, s')
      else if is_digit c then Some (digits_of 0 s)
      else None
  | EmptyString => None
  end.

(** The optional fraction: mantissa so far, number of fraction digits. *)
Definition scan_frac (m : Z) (s : string) : option (Z * nat * string) :=
  match s with
  | String c s' =>
      if is_point c && starts_with_digit s' then
        let (m', rest) := digits_of m s' in Some (m', count_digits s', rest)
      else None
  | EmptyString => None
  end.

(** The optional exponent. *)
Definition scan_exp (s : string) : option (Z * string) :=
  match s with
  | String c s' =>
      if Ascii.eqb c "e" || Ascii.eqb c "E" then
        match s' with
        | String sg s'' =>
            if (Ascii.eqb sg "-" || Ascii.eqb sg "+") && starts_with_digit s''
            then
              let (e, rest) := digits_of 0 s'' in
              Some (if Ascii.eqb sg "-" then (- e)%Z else e, rest)
            else if is_digit sg then Some (digits_of 0 s')
            else None
        | EmptyString => None
        end
      else None
  | EmptyString => None
  end.

(** [float] of the literal with mantissa [m], [n] fraction digits and
    exponent [e]. *)
Definition decimal_float (negative : bool) (m : Z) (n : nat) (e : Z) : pyfloat :=
  let num := (m * 10 ^ Z.max 0 e)%Z in
  let den := (pow10 n * 10 ^ Z.max 0 (- e))%Z in
  let q := (inject_Z num / inject_Z den)%Q in
  Fin (Qred (if negative then - q else q)).

Definition scan_number (s : string) : option (value * string) :=
  let (negative, digits) :=
    match s with
    | String c s' => if Ascii.eqb c "-" then (true, s') else (false, s)
    | EmptyString => (false, s)
    end in
  match scan_integer digits with
  | None => None
  | Some (i, rest) =>
      let signed (z : Z) := if negative then (- z)%Z else z in
      match scan_frac i rest with
      | Some (m, n, rest') =>
          match scan_exp rest' with
          | Some (e, rest'') =>
              Some (VFloat (decimal_float negative m n e), rest'')
          | None => Some (VFloat (decimal_float negative m n 0), rest')
          end
      | None =>
          match scan_exp rest with
          | Some (e, rest') =>
              Some (VFloat (decimal_float negative i 0 e), rest')
          | None => Some (VInt (signed i), rest)
          end
      end
  end.

(** *** Values *)

Definition keyword (w : string) (v : value) (s : string) : option (value * string) :=
  if is_prefix w s then Some (v, drop (String.length w) s) else None.

(** The scalar alternatives of [scan_once], in its order. *)
Definition scan_scalar (s : string) : scan value :=
  let try (r : option (value * string)) (next : scan value) : scan value :=
    match r with
    | Some (v, rest) => Scanned v rest
    | None => next
    end in
  try (keyword "null" VNone s)
    (try (keyword "true" (VBool true) s)
      (try (keyword "false" (VBool false) s)
        (try (scan_number s)
          (try (keyword "NaN" (VFloat NaN) s)
            (try (keyword "Infinity" (VFloat PosInf) s)
              (try (keyword "-Infinity" (VFloat NegInf) s) Invalid)))))).

(** [scan_once], [JSONArray] and [JSONObject].  The loops of the two
    container readers are [array_items], entered before an item, and
    [object_members], entered after the opening quote of a key. *)
Fixpoint scan_once (fuel : nat) (s : string) {struct fuel} : scan value :=
  match fuel with
  | O => Exhausted
  | S n =>
      match s with
      | EmptyString => Invalid
      | String c s' =>
          if is_dquote c then
            match scanstring s' with
            | Some (t, rest) => Scanned (VStr t) rest
            | None => Invalid
            end
          else if Ascii.eqb c "{" then
            match skip_ws s' with
            | String c1 s1 =>
                if Ascii.eqb c1 "}" then Scanned (VDict []) s1
                else if is_dquote c1 then object_members n [] s1
                else Invalid
            | EmptyString => Invalid
            end
          else if Ascii.eqb c "[" then
            match skip_ws s' with
            | String c1 s1 =>
                if Ascii.eqb c1 "]" then Scanned (VList []) s1
                else array_items n [] (String c1 s1)
            | EmptyString => Invalid
            end
          else scan_scalar s
      end
  end

with array_items (fuel : nat) (acc : list value) (s : string) {struct fuel}
  : scan value :=
  match fuel with
  | O => Exhausted
  | S n =>
      match scan_once n s with
      | Scanned v rest =>
          match skip_ws rest with
          | String c r =>
              if Ascii.eqb c "]" then Scanned (VList (rev (v :: acc))) r
              else if Ascii.eqb c "," then array_items n (v :: acc) (skip_ws r)
              else Invalid
          | EmptyString => Invalid
          end
      | Invalid => Invalid
      | Exhausted => Exhausted
      end
  end

with object_members (fuel : nat) (acc : list (string * value)) (s : string)
  {struct fuel} : scan value :=
  match fuel with
  | O => Exhausted
  | S n =>
      match scanstring s with
      | None => Invalid
      | Some (key, rest) =>
          match skip_ws rest with
          | String c r =>
              if Ascii.eqb c ":" then
                match scan_once n (skip_ws r) with
                | Scanned v rest' =>
                    match skip_ws rest' with
                    | String c' r' =>
                        if Ascii.eqb c' "}" then
                          Scanned (VDict (dict_of_pairs (rev ((key, v) :: acc)))) r'
                        else if Ascii.eqb c' "," then
                          match skip_ws r' with
                          | String q r'' =>
                              if is_dquote q
                              then object_members n ((key, v) :: acc) r''
                              else Invalid
                          | EmptyString => Invalid
                          end
                        else Invalid
                    | EmptyString => Invalid
                    end
                | Invalid => Invalid
                | Exhausted => Exhausted
                end
              else Invalid
          | EmptyString => Invalid
          end
      end
  end.

(** The outcome of [json.loads]. *)
Inductive loads_result : Type :=
| Parsed (v : value)
| JSONDecodeError.

(** [JSONDecoder.decode]: one value between white space, nothing else.
    Twice the length of the text is more fuel than the reader uses
    ([scan_once_fuel] below). *)
Definition loads (s : string) : loads_result :=
  match scan_once (S (2 * String.length s)) (skip_ws s) with
  | Scanned v rest =>
      if is_empty (skip_ws rest) then Parsed v else JSONDecodeError
  | _ => JSONDecodeError
  end.

End Json.
(** ** app/models/schemas.py *)

Inductive RiskLevel : Type := CONSERVATIVE | MODERATE | AGGRESSIVE.

Definition RiskLevel_value (r : RiskLevel) : string :=
  match r with
  | CONSERVATIVE => "conservative"
  | MODERATE => "moderate"
  | AGGRESSIVE => "aggressive"
  end.




Record UserProfile : Type := {
  age : Z;
  annual_income : pyfloat;
  investment_experience : string;
  risk_tolerance : RiskLevel;
  financial_goals : list string;
  time_horizon : Z;
  current_assets : option pyfloat;
  monthly_expenses : option pyfloat
}.

(** The [Field] constraints of [UserProfile]. *)
Definition UserProfile_valid (p : UserProfile) : Prop :=
  (18 <= age p <= 100)%Z
  /\ flt (annual_income p) (Fin 0) = false
  /\ annual_income p <> NaN
  /\ (1 <= time_horizon p)%Z.

(** ** app/services/financial_agent.py *)

Module FinancialAgentService.

(** [rec.get("allocation_percentage", 0)]. *)
Definition allocation_of (rec : value) : option value :=
  py_get rec "allocation_percentage" (VInt 0).

(** [sum(rec.get("allocation_percentage", 0) for rec in recs)]: the
    accumulator starts at the integer 0. *)
Fixpoint sum_from (acc : number) (recs : list value) : option number :=
  match recs with
  | [] => Some acc
  | rec :: rest =>
      match allocation_of rec with
      | None => None
      | Some x =>
          match as_number x with
          | None => None
          | Some n => sum_from (num_add acc n) rest
          end
      end
  end.

Definition total_allocation (recs : list value) : option number :=
  sum_from (NInt 0) recs.

(** [rec["allocation_percentage"] *= factor]. *)
Definition scale_rec (factor : pyfloat) (rec : value) : option value :=
  match py_getitem rec "allocation_percentage" with
  | None => None
  | Some x =>
      match py_mul x (VFloat factor) with
      | None => None
      | Some y => py_setitem rec "allocation_percentage" y
      end
  end.

(** The adjusting loop.  The records are updated in place one after the
    other: when one raises, those before it stay updated.  The flag is
    [false] when an exception escaped. *)
Fixpoint scale_all (factor : pyfloat) (recs : list value)
  : list value * bool :=
  match recs with
  | [] => ([], true)
  | rec :: rest =>
      match scale_rec factor rec with
      | None => (rec :: rest, false)
      | Some rec' =>
          let (rest', ok) := scale_all factor rest in (rec' :: rest', ok)
      end
  end.

(** The object [strategy["investment_recommendations"]] after its items
    were updated in place: only a list holds mutable items. *)
Definition with_items (recs : value) (items : list value) : value :=
  match recs with
  | VList _ => VList items
  | _ => recs
  end.

(** [factor = 100.0 / total_allocation if total_allocation > 0 else 1.0] *)
Definition adjust_factor (total : number) : option pyfloat :=
  if num_gt total (NInt 0) then fdiv (Fin 100) (to_float total)
  else Some (Fin 1).

(** [abs(total_allocation - 100.0) > 1.0] *)
Definition needs_adjusting (total : number) : bool :=
  num_gt (num_abs (num_sub total (NFloat (Fin 100)))) (NFloat (Fin 1)).

(** Lines 270-282 of [_validate_strategy]: the state of [strategy]
    afterwards, and [false] when an exception escaped.  The loop updates
    the recommendations in place; the model stores the updated list back
    under its key. *)
Definition adjust_allocations (strategy : value) : value * bool :=
  match py_contains strategy "investment_recommendations" with
  | None => (strategy, false)
  | Some false => (strategy, true)
  | Some true =>
      match py_getitem strategy "investment_recommendations" with
      | None => (strategy, false)
      | Some recs =>
          match py_iter recs with
          | None => (strategy, false)
          | Some items =>
              match total_allocation items with
              | None => (strategy, false)
              | Some total =>
                  if needs_adjusting total then
                    match adjust_factor total with
                    | None => (strategy, false)
                    | Some factor =>
                        let (items', ok) := scale_all factor items in
                        match py_setitem strategy "investment_recommendations"
                                (with_items recs items') with
                        | Some strategy' => (strategy', ok)
                        | None => (strategy, false)
                        end
                    end
                  else (strategy, true)
              end
          end
      end
  end.

(** Lines 284-293 of [_validate_strategy]. *)
Definition clamp_emergency_fund (strategy : value) (user_profile : UserProfile)
  : value * bool :=
  match monthly_expenses user_profile with
  | None => (strategy, true)
  | Some expenses =>
      if ftruth expenses then
        let min_emergency := fmul expenses (of_Z 3) in
        let max_emergency := fmul expenses (of_Z 12) in
        match py_get strategy "emergency_fund_target" (VInt 0) with
        | None => (strategy, false)
        | Some current_target =>
            match py_lt current_target (VFloat min_emergency) with
            | None => (strategy, false)
            | Some true =>
                match py_setitem strategy "emergency_fund_target"
                        (VFloat min_emergency) with
                | Some strategy' => (strategy', true)
                | None => (strategy, false)
                end
            | Some false =>
                match py_gt current_target (VFloat max_emergency) with
                | None => (strategy, false)
                | Some true =>
                    match py_setitem strategy "emergency_fund_target"
                            (VFloat max_emergency) with
                    | Some strategy' => (strategy', true)
                    | None => (strategy, false)
                    end
                | Some false => (strategy, true)
                end
            end
        end
      else (strategy, true)
  end.

(** Both the normal exit and the handler return the object [strategy] in
    the state the body left it in. *)
Definition _validate_strategy (strategy : value) (user_profile : UserProfile)
  : value :=
  let (strategy1, ok) := adjust_allocations strategy in
  if ok then fst (clamp_emergency_fund strategy1 user_profile)
  else strategy1.

(** [str(age)] inside the f-string. *)
Definition str_of_int (z : Z) : string := NilZero.string_of_int (Z.to_int z).

(** The rule-based allocation: stocks and bonds before normalising. *)
Definition basic_allocation (risk_level : RiskLevel) (age : Z) : Z * Z :=
  match risk_level with
  | CONSERVATIVE => (Z.max 30 (100 - age), Z.min 70 (age + 20))
  | AGGRESSIVE => (Z.min 90 (120 - age), Z.max 10 (age - 20))
  | MODERATE => (Z.max 40 (110 - age), Z.min 60 (age + 10))
  end%Z.

(** [(part / total) * 100]; [None] is [ZeroDivisionError]. *)
Definition share (part total : Z) : option pyfloat :=
  option_map (fun r => fmul r (of_Z 100)) (fdiv (of_Z part) (of_Z total)).

(** [(user_profile.monthly_expenses or 3000) * 6] *)
Definition fallback_emergency_fund (user_profile : UserProfile) : value :=
  match monthly_expenses user_profile with
  | Some expenses =>
      if ftruth expenses then VFloat (fmul expenses (of_Z 6))
      else VInt (3000 * 6)
  | None => VInt (3000 * 6)
  end.

Definition _generate_fallback_strategy (user_profile : UserProfile)
  : option value :=
  let age := age user_profile in
  let risk_level := risk_tolerance user_profile in
  let (stock, bond) := basic_allocation risk_level age in
  let total := (stock + bond)%Z in
  match share stock total, share bond total,
        fdiv (fmul (annual_income user_profile) (Fin (15 # 100))) (of_Z 12) with
  | Some stock_allocation, Some bond_allocation, Some savings =>
      Some (VDict [
        ("strategy_summary",
          VStr ("Balanced " ++ RiskLevel_value risk_level
                ++ " strategy appropriate for age " ++ str_of_int age));
        ("investment_recommendations", VList [
          VDict [
            ("asset_class", VStr "Stocks");
            ("allocation_percentage", VFloat (round1 stock_allocation));
            ("rationale",
              VStr "Growth potential appropriate for age and risk tolerance");
            ("risk_level", VStr (RiskLevel_value risk_level)) ];
          VDict [
            ("asset_class", VStr "Bonds");
            ("allocation_percentage", VFloat (round1 bond_allocation));
            ("rationale", VStr "Stability and income generation");
            ("risk_level", VStr "conservative") ] ]);
        ("monthly_savings_target", VFloat savings);
        ("emergency_fund_target", fallback_emergency_fund user_profile);
        ("key_actions", VList [
          VStr "Open investment accounts if not already done";
          VStr "Set up automatic monthly contributions";
          VStr "Review and rebalance quarterly" ]);
        ("risk_warnings", VList [
          VStr "Market volatility can affect portfolio value";
          VStr "Past performance doesn't guarantee future results" ]);
        ("review_timeline",
          VStr "Review annually or when life circumstances change") ])
  | _, _, _ => None
  end.

Definition _generate_fallback_risk_assessment : value :=
  VDict [
    ("overall_risk_score", VFloat (Fin (5 # 10)));
    ("risk_level", VStr "moderate");
    ("risk_factors", VList [
      VDict [
        ("factor_name", VStr "Market Volatility");
        ("severity", VStr "medium");
        ("impact_score", VFloat (Fin (6 # 10)));
        ("mitigation_strategies",
          VList [VStr "Diversification"; VStr "Dollar-cost averaging"]) ] ]);
    ("recommendations",
      VList [VStr "Maintain diversified portfolio";
             VStr "Regular risk assessment"]);
    ("confidence_score", VFloat (Fin (7 # 10))) ].

Section Chains.

(** The completion service behind [strategy_chain] and [risk_chain].
    Each function stands for building the prompt and running the chain
    once; [None] is any exception raised on the way. *)
Variable strategy_chain : UserProfile -> value -> option string.
Variable risk_chain : value -> string -> option string.

(** [None] is an exception reaching the caller. *)
Definition generate_financial_strategy (user_profile : UserProfile)
  (preferences : value) : option value :=
  match strategy_chain user_profile preferences with
  | Some result =>
      match Json.loads (Text.strip result) with
      | Json.Parsed strategy =>
          Some (_validate_strategy strategy user_profile)
      | Json.JSONDecodeError => _generate_fallback_strategy user_profile
      end
  | None => _generate_fallback_strategy user_profile
  end.

Definition assess_financial_risk (financial_data : value)
  (scenario_type : string) : value :=
  match risk_chain financial_data scenario_type with
  | Some result =>
      match Json.loads (Text.strip result) with
      | Json.Parsed risk_assessment => risk_assessment
      | Json.JSONDecodeError => _generate_fallback_risk_assessment
      end
  | None => _generate_fallback_risk_assessment
  end.

End Chains.

End FinancialAgentService.

(** ** app/services/rag_service.py *)

Module RAGService.

Import Text.

(** [compliance_status], lazily anything on the line, a quote, a word
    (the group), a quote; [re.IGNORECASE]. *)
Definition status_pattern : string -> option string :=
  lit lower "compliance_status"
    (star_lazy is_dot_char
      (chr is_quote
        (group (plus is_word) (fun status => chr is_quote (fun _ => Some status))))).

(** [confidence_score], lazily anything on the line, then the group:
    digits, an optional point, digits. *)
Definition confidence_pattern : string -> option string :=
  lit (fun c => c) "confidence_score"
    (star_lazy is_dot_char
      (group (fun k => plus is_digit (opt is_point (star is_digit k)))
         (fun number _ => Some number))).

(** A double-quoted text without double quotes that contains [word];
    [re.IGNORECASE].  The group is the text between the quotes. *)
Definition quoted_with (word : string) : string -> option (string * string) :=
  chr is_dquote
    (group (fun k => star not_dquote (lit lower word (star not_dquote k)))
       (fun text => chr is_dquote (fun rest => Some (text, rest)))).

Definition strings (l : list string) : value := VList (map VStr l).

(** The body of the [try] block; [None] is an exception raised in it. *)
Definition extract (response : string) : option value :=
  let status :=
    match search status_pattern response with
    | Some s => s
    | None => "needs_review"
    end in
  match
    match search confidence_pattern response with
    | Some number => float_of_decimal number
    | None => Some (Fin (5 # 10))
    end
  with
  | None => None
  | Some confidence =>
      let flagged_clauses := findall (quoted_with "clause") response in
      let recommendations := findall (quoted_with "recommend") response in
      let risk_factors := findall (quoted_with "risk") response in
      Some (VDict [
        ("compliance_status", VStr status);
        ("confidence_score",
          VFloat (if flt (Fin 1) confidence then Fin 1 else confidence));
        ("flagged_clauses", strings (firstn 5 flagged_clauses));
        ("recommendations", strings (firstn 5 recommendations));
        ("risk_factors", strings (firstn 5 risk_factors)) ])
  end.

Definition _parse_fallback_response (response : string) : value :=
  match extract response with
  | Some analysis => analysis
  | None =>
      VDict [
        ("compliance_status", VStr "needs_review");
        ("confidence_score", VFloat (Fin 0));
        ("flagged_clauses", VList []);
        ("recommendations", VList [VStr "Manual review required"]);
        ("risk_factors", VList [VStr "Analysis parsing error"]) ]
  end.

Section Chain.

(** [retrieve_relevant_context] catches every exception itself.  The
    chain function stands for one run of [compliance_chain]; [None] is
    an exception raised by it. *)
Variable retrieve_relevant_context : string -> string.
Variable compliance_chain : string -> string -> option string.

Definition analyze_compliance (document_text : string) : value :=
  let context := retrieve_relevant_context document_text in
  match compliance_chain document_text context with
  | Some result =>
      match Json.loads (strip result) with
      | Json.Parsed analysis => analysis
      | Json.JSONDecodeError => _parse_fallback_response result
      end
  | None =>
      VDict [
        ("compliance_status", VStr "needs_review");
        ("confidence_score", VFloat (Fin 0));
        ("flagged_clauses", VList []);
        ("recommendations",
          VList [VStr "Manual review required due to analysis error"]);
        ("risk_factors", VList [VStr "Analysis system error"]) ]
  end.

End Chain.

End RAGService.

(** ** More of Python's operators *)

(** [bool(v)] *)
Definition py_truth (v : value) : bool :=
  match v with
  | VNone => false
  | VBool b => b
  | VInt z => negb (Z.eqb z 0)
  | VFloat f => ftruth f
  | VStr s => negb (Text.is_empty s)
  | VList l => negb (Nat.eqb (List.length l) 0)
  | VDict d => negb (Nat.eqb (List.length d) 0)
  end.

(** [a <= b] on floats. *)
Definition fle (a b : pyfloat) : bool :=
  match a, b with
  | NaN, _ | _, NaN => false
  | Fin x, Fin y => Qle_bool x y
  | _, _ => negb (flt b a)
  end.

Definition num_le (a b : number) : bool :=
  match a, b with
  | NInt x, NInt y => Z.leb x y
  | _, _ => fle (to_float a) (to_float b)
  end.

(** [isinstance(v, int)]: [bool] is a subclass of [int]. *)
Definition is_int (v : value) : bool :=
  match v with
  | VInt _ | VBool _ => true
  | _ => false
  end.

(** [isinstance(v, (int, float))] *)
Definition is_int_or_float (v : value) : bool :=
  match as_number v with
  | Some _ => true
  | None => false
  end.

Definition is_list (v : value) : bool :=
  match v with
  | VList _ => true
  | _ => false
  end.

(** [v < k] and [v > k] for a number [v] and an integer literal [k]; the
    callers test [isinstance] first. *)
Definition lt_literal (v : value) (k : Z) : bool :=
  match as_number v with
  | Some n => num_lt n (NInt k)
  | None => false
  end.

Definition gt_literal (v : value) (k : Z) : bool :=
  match as_number v with
  | Some n => num_gt n (NInt k)
  | None => false
  end.

(** [len(v)] of a list. *)
Definition list_len (v : value) : nat :=
  match v with
  | VList l => List.length l
  | _ => O
  end.

(** ** app/utils/helpers.py *)

Module SecurityUtils.

Import Text.

(** The characters [re.sub] removes: angle brackets and both quotes. *)
Definition is_dangerous (c : ascii) : bool :=
  Ascii.eqb c "<" || Ascii.eqb c ">" || is_dquote c || Ascii.eqb c "'".

Fixpoint remove (p : ascii -> bool) (s : string) : string :=
  match s with
  | EmptyString => EmptyString
  | String c s' => if p c then remove p s' else String c (remove p s')
  end.

Definition max_length : nat := 100 * 100.

(** [s[:n]] *)
Fixpoint take (n : nat) (s : string) : string :=
  match n, s with
  | S m, String c s' => String c (take m s')
  | _, _ => EmptyString
  end.

Definition sanitize_input (input_text : value) : string :=
  match input_text with
  | VStr text =>
      let sanitized := remove is_dangerous text in
      let sanitized :=
        if Nat.ltb max_length (String.length sanitized)
        then take max_length sanitized else sanitized in
      strip sanitized
  | _ => EmptyString
  end.

(** [n] stars. *)
Fixpoint stars (n : nat) : string :=
  match n with
  | O => EmptyString
  | S m => String "*" (stars m)
  end.

(** What replaces the text of a sensitive field: stars for all but the
    last four characters, and for all of a text of at most four. *)
Definition mask (text : string) : string :=
  let n := String.length text in
  if Nat.ltb 4 n then stars (n - 4) ++ Json.drop (n - 4) text
  else stars n.

Definition default_sensitive_fields : list string :=
  ["ssn"; "account_number"; "routing_number"; "credit_card"].

Section Masking.

(** [str(v)], a parameter of the model. *)
Variable str : value -> string.

(** The body of the loop over the sensitive fields. *)
Definition mask_field (masked_data : dict) (field : string) : dict :=
  match dict_get field masked_data with
  | Some v => dict_set field (VStr (mask (str v))) masked_data
  | None => masked_data
  end.

(** The copy of [data] is shallow and only its top level is assigned to:
    the argument is not changed. *)
Definition mask_sensitive_data (data : dict)
  (sensitive_fields : option (list string)) : dict :=
  let sensitive_fields :=
    match sensitive_fields with
    | Some fields => fields
    | None => default_sensitive_fields
    end in
  fold_left mask_field sensitive_fields data.

End Masking.

End SecurityUtils.

Module DocumentProcessor.

Import Text.

(** [re.sub] of every run of white space by one space; [in_run] tells
    that the character before was white space. *)
Fixpoint collapse_spaces (in_run : bool) (s : string) : string :=
  match s with
  | EmptyString => EmptyString
  | String c s' =>
      if is_space c then
        if in_run then collapse_spaces true s'
        else String " " (collapse_spaces true s')
      else String c (collapse_spaces false s')
  end.

(** The characters the second [re.sub] keeps: word characters, white
    space and the punctuation of the class. *)
Definition is_kept (c : ascii) : bool :=
  is_word c || is_space c
  || Ascii.eqb c "." || Ascii.eqb c "," || Ascii.eqb c ";" || Ascii.eqb c ":"
  || Ascii.eqb c "!" || Ascii.eqb c "?" || Ascii.eqb c "(" || Ascii.eqb c ")"
  || Ascii.eqb c "-".

Definition cr : ascii := "013"%char.
Definition lf : ascii := "010"%char.

(** [text.replace] of a carriage return and line feed pair, then of a
    lone carriage return, by a line feed. *)
Fixpoint replace_crlf (s : string) : string :=
  match s with
  | EmptyString => EmptyString
  | String c s' =>
      match s' with
      | String c' s'' =>
          if Ascii.eqb c cr && Ascii.eqb c' lf then String lf (replace_crlf s'')
          else String c (replace_crlf s')
      | EmptyString => String c EmptyString
      end
  end.

Fixpoint replace_cr (s : string) : string :=
  match s with
  | EmptyString => EmptyString
  | String c s' => String (if Ascii.eqb c cr then lf else c) (replace_cr s')
  end.

(** [re.sub] of every run of three or more periods by three; [seen]
    counts the periods of the current run already written. *)
Fixpoint collapse_periods (seen : nat) (s : string) : string :=
  match s with
  | EmptyString => EmptyString
  | String c s' =>
      if is_point c then
        if Nat.ltb seen 3 then String c (collapse_periods (S seen) s')
        else collapse_periods seen s'
      else String c (collapse_periods O s')
  end.

(** No step of the [try] block raises on a string. *)
Definition clean_text (text : string) : string :=
  let text := collapse_spaces false text in
  let text := SecurityUtils.remove (fun c => negb (is_kept c)) text in
  let text := replace_cr (replace_crlf text) in
  let text := collapse_periods O text in
  strip text.

End DocumentProcessor.

Module DataValidator.

Definition errors : Type := list (string * list string).

(** [errors[field] = [message]] when [bad]; every field is set at most
    once, in the order of the checks. *)
Definition report (bad : bool) (field message : string) (e : errors) : errors :=
  if bad then (e ++ [(field, [message])])%list else e.

(** [None] is the [AttributeError] of [profile_data.get] on a value that
    is not a mapping. *)
Definition validate_user_profile (profile_data : value) : option errors :=
  match profile_data with
  | VDict d =>
      let get (k : string) :=
        match dict_get k d with
        | Some v => v
        | None => VNone
        end in
      let age := get "age" in
      let e := report (negb (py_truth age) || negb (is_int age)
                       || lt_literal age 18 || gt_literal age 100)
                 "age" "Age must be between 18 and 100" [] in
      let income := get "annual_income" in
      let e := report (negb (py_truth income) || negb (is_int_or_float income)
                       || lt_literal income 0)
                 "annual_income" "Annual income must be a positive number" e in
      let risk_tolerance := get "risk_tolerance" in
      let e := report (negb (py_truth risk_tolerance)
                       || negb (existsb (fun level => is_str level risk_tolerance)
                                  ["conservative"; "moderate"; "aggressive"]))
                 "risk_tolerance"
                 "Risk tolerance must be one of: conservative, moderate, aggressive"
                 e in
      let time_horizon := get "time_horizon" in
      let e := report (negb (py_truth time_horizon) || negb (is_int time_horizon)
                       || lt_literal time_horizon 1)
                 "time_horizon" "Time horizon must be at least 1 year" e in
      let goals := get "financial_goals" in
      let e := report (negb (py_truth goals) || negb (is_list goals)
                       || Nat.eqb (list_len goals) 0)
                 "financial_goals"
                 "At least one financial goal must be specified" e in
      Some e
  | _ => None
  end.

(** The bare [except] turns every exception into [False]. *)
Definition validate_allocation_percentages (recommendations : value) : bool :=
  match py_iter recommendations with
  | None => false
  | Some items =>
      match FinancialAgentService.total_allocation items with
      | None => false
      | Some total =>
          num_le (num_abs (num_sub total (NFloat (Fin 100)))) (NFloat (Fin 1))
      end
  end.

End DataValidator.

(** [user_profile.dict()]: the fields in the order of the model; the risk
    tolerance is the enumeration member, which compares as its string. *)
Definition UserProfile_dict (p : UserProfile) : value :=
  let optional (f : option pyfloat) :=
    match f with
    | Some x => VFloat x
    | None => VNone
    end in
  VDict [("age", VInt (age p));
         ("annual_income", VFloat (annual_income p));
         ("investment_experience", VStr (investment_experience p));
         ("risk_tolerance", VStr (RiskLevel_value (risk_tolerance p)));
         ("financial_goals", VList (map VStr (financial_goals p)));
         ("time_horizon", VInt (time_horizon p));
         ("current_assets", optional (current_assets p));
         ("monthly_expenses", optional (monthly_expenses p))].

(** ** Vocabulary of the properties *)

(** The rational a value denotes when it is a finite number. *)
Definition finite (v : value) : option Q :=
  match as_number v with
  | Some n =>
      match to_float n with
      | Fin q => Some q
      | _ => None
      end
  | None => None
  end.

Fixpoint all_some {A : Type} (l : list (option A)) : option (list A) :=
  match l with
  | [] => Some []
  | Some a :: rest => option_map (cons a) (all_some rest)
  | None :: _ => None
  end.

(** The allocation percentage of a recommendation. *)
Definition percentage_of (rec : value) : option Q :=
  match py_getitem rec "allocation_percentage" with
  | Some x => finite x
  | None => None
  end.

(** The allocation percentages of a strategy: it is a mapping whose
    [investment_recommendations] is a list of mappings, each holding a
    finite number under [allocation_percentage]. *)
Definition percentages_of (strategy : value) : option (list Q) :=
  match py_getitem strategy "investment_recommendations" with
  | Some (VList recs) => all_some (map percentage_of recs)
  | _ => None
  end.

Definition Qsum (l : list Q) : Q := fold_right Qplus 0%Q l.

(** The emergency fund target of a strategy, when it holds one. *)
Definition emergency_fund_of (strategy : value) : option Q :=
  match py_getitem strategy "emergency_fund_target" with
  | Some x => finite x
  | None => None
  end.

(** The invariants of a strategy for a profile: the percentages sum to 100
    within 1.0, and the emergency fund target lies between 3 and 12 times
    the monthly expenses when these are known (present and not zero). *)
Definition satisfies_invariants (strategy : value) (user_profile : UserProfile)
  : Prop :=
  (exists ps, percentages_of strategy = Some ps /\ (Qabs (Qsum ps - 100) <= 1)%Q)
  /\ match monthly_expenses user_profile with
     | None => True
     | Some (Fin e) =>
         (e == 0)%Q
         \/ exists t, emergency_fund_of strategy = Some t
                      /\ (3 * e <= t)%Q /\ (t <= 12 * e)%Q
     | Some _ => False
     end.



Fixpoint all_chars (p : ascii -> bool) (s : string) : bool :=
  match s with
  | EmptyString => true
  | String c s' => p c && all_chars p s'
  end.

(** [d'] agrees with [d] on every key outside [keys]. *)
Definition same_outside (keys : list string) (d d' : dict) : Prop :=
  forall k, ~ In k keys -> dict_get k d' = dict_get k d.

(** A recommendation after validation: the same object, or a mapping that
    differs from it under [allocation_percentage] only. *)
Definition rec_frame (rec rec' : value) : Prop :=
  rec' = rec
  \/ exists r r', rec = VDict r /\ rec' = VDict r'
                  /\ same_outside ["allocation_percentage"] r r'.

(** The recommendations after validation. *)
Definition recs_frame (recs recs' : value) : Prop :=
  recs' = recs
  \/ exists l l', recs = VList l /\ recs' = VList l' /\ Forall2 rec_frame l l'.

(** The strategy after validation: nothing but the allocation percentages
    and the emergency fund target may differ. *)
Definition strategy_frame (strategy strategy' : value) : Prop :=
  match strategy with
  | VDict d =>
      exists d', strategy' = VDict d'
        /\ same_outside ["investment_recommendations"; "emergency_fund_target"] d d'
        /\ (forall recs, dict_get "investment_recommendations" d = Some recs ->
              exists recs', dict_get "investment_recommendations" d' = Some recs'
                            /\ recs_frame recs recs')
        /\ (dict_get "investment_recommendations" d = None ->
              dict_get "investment_recommendations" d' = None)
  | _ => strategy' = strategy
  end.

(** The text of the malformed risk assessment scenario. *)
Definition malformed_risk_text : string :=
  "Sure! Here's my analysis: risk_level is moderate, confidence_score around 0.8...".

(** The profile of the fallback scenario. *)
Definition scenario_profile : UserProfile :=
  {| age := 35;
     annual_income := Fin 75000;
     investment_experience := "moderate";
     risk_tolerance := MODERATE;
     financial_goals := ["retirement"; "house purchase"];
     time_horizon := 20;
     current_assets := Some (Fin 50000);
     monthly_expenses := Some (Fin 4000) |}.

(** Sample inputs: a recommendation holding [pct], and a strategy holding
    recommendations with the percentages [pcts] and the emergency fund
    target [target]. *)
Definition sample_recommendation (pct : value) : value :=
  VDict [("asset_class", VStr "Stocks");
         ("allocation_percentage", pct);
         ("rationale", VStr "Growth");
         ("risk_level", VStr "moderate")].

Definition sample_strategy (pcts : list value) (target : value) : value :=
  VDict [("strategy_summary", VStr "Balanced strategy");
         ("investment_recommendations", VList (map sample_recommendation pcts));
         ("monthly_savings_target", VFloat (Fin 1000));
         ("emergency_fund_target", target);
         ("key_actions", VList [VStr "Rebalance"]);
         ("risk_warnings", VList []);
         ("review_timeline", VStr "Review quarterly")].

(** A strategy whose second recommendation lacks its percentage. *)
Definition incomplete_strategy : value :=
  VDict [("investment_recommendations",
           VList [VDict [("asset_class", VStr "Stocks");
                         ("allocation_percentage", VInt 50)];
                  VDict [("asset_class", VStr "Bonds")]]);
         ("emergency_fund_target", VInt 30000)].


(** A completion service that answers every request with [text], and one
    that fails on every request. *)
Definition answering {A B : Type} (text : string) : A -> B -> option string :=
  fun _ _ => Some text.


(** Sample financial data of a risk assessment request. *)
Definition sample_financial_data : value :=
  VDict [("annual_income", VInt 60000);
         ("monthly_expenses", VInt 4500);
         ("debt_amount", VInt 25000)].






(** ** Vocabulary of the further properties *)

(** The monthly expenses are absent or a finite number that is not
    negative. *)
Definition expenses_nonnegative (user_profile : UserProfile) : Prop :=
  match monthly_expenses user_profile with
  | None => True
  | Some (Fin e) => (0 <= e)%Q
  | Some _ => False
  end.






(** The first character, if any, is not white space. *)
Definition starts_clean (s : string) : Prop :=
  match s with
  | String c _ => Text.is_space c = false
  | EmptyString => True
  end.



(** [n] periods. *)
Fixpoint points (n : nat) : string :=
  match n with
  | O => EmptyString
  | S m => String "." (points m)
  end.

Definition is_star (c : ascii) : bool := Ascii.eqb c "*".

(** The fields a call of [mask_sensitive_data] masks. *)
Definition masked_fields (sensitive_fields : option (list string))
  : list string :=
  match sensitive_fields with
  | Some fields => fields
  | None => SecurityUtils.default_sensitive_fields
  end.

(** [str] on the values of the examples: a string is its own text and an
    integer its decimal numeral; no other value occurs in them. *)
Definition sample_str (v : value) : string :=
  match v with
  | VStr s => s
  | VInt z => FinancialAgentService.str_of_int z
  | _ => EmptyString
  end.

Definition sample_account : dict :=
  [("name", VStr "Ada"); ("ssn", VStr "123-45-6789"); ("pin", VInt 1234)].

(** * Properties *)

(** ** Tactics and basic facts *)

#[local] Arguments Qred _ : simpl never.
#[local] Arguments Qplus _ _ : simpl never.
#[local] Arguments Qminus _ _ : simpl never.
#[local] Arguments Qmult _ _ : simpl never.
#[local] Arguments Qdiv _ _ : simpl never.
#[local] Arguments Qopp _ : simpl never.
#[local] Arguments Qabs _ : simpl never.
#[local] Arguments Qle_bool _ _ : simpl never.
#[local] Arguments Qeq_bool _ _ : simpl never.
#[local] Arguments inject_Z _ : simpl never.

(** Case analysis on the scrutinee of the innermost [match] of the goal. *)
Ltac case_match :=
  match goal with
  | |- context [match ?x with _ => _ end] =>
      lazymatch x with
      | context [match _ with _ => _ end] => fail
      | _ => destruct x eqn:?
      end
  end.

Lemma Qltb_lt (x y : Q) : Qltb x y = true <-> (x < y)%Q.
Proof.
  unfold Qltb. rewrite negb_true_iff.
  split; intros H.
  - apply Qnot_le_lt. intros Hle. apply Qle_bool_iff in Hle. congruence.
  - destruct (Qle_bool y x) eqn:E; [|reflexivity].
    apply Qle_bool_iff in E. exfalso. exact (Qlt_not_le _ _ H E).
Qed.

Lemma Qltb_ge (x y : Q) : Qltb x y = false <-> (y <= x)%Q.
Proof.
  unfold Qltb. rewrite negb_false_iff. apply Qle_bool_iff.
Qed.

Lemma dict_get_set_same (k : string) (v : value) (d : dict) :
  dict_get k (dict_set k v d) = Some v.
Proof.
  induction d as [|[k' v'] d IH]; simpl.
  - now rewrite String.eqb_refl.
  - destruct (String.eqb k k') eqn:E; simpl; rewrite E; auto.
Qed.

Lemma dict_get_set_other (k k' : string) (v : value) (d : dict) :
  k' <> k -> dict_get k' (dict_set k v d) = dict_get k' d.
Proof.
  intros Hne. induction d as [|[k0 v0] d IH]; simpl.
  - destruct (String.eqb_spec k' k); congruence.
  - destruct (String.eqb_spec k k0) as [->|Hk]; simpl.
    + destruct (String.eqb_spec k' k0); congruence.
    + now rewrite IH.
Qed.

Lemma dict_set_unchanged (k : string) (v : value) (d : dict) :
  dict_get k d = Some v -> dict_set k v d = d.
Proof.
  induction d as [|[k' v'] d IH]; simpl; [discriminate|].
  destruct (String.eqb_spec k k') as [->|Hk]; intros H.
  - congruence.
  - now rewrite IH.
Qed.

Lemma same_outside_refl (keys : list string) (d : dict) : same_outside keys d d.
Proof. now intros k _. Qed.

Lemma same_outside_set (keys : list string) (k : string) (v : value) (d : dict) :
  In k keys -> same_outside keys d (dict_set k v d).
Proof.
  intros Hin k' Hk'. apply dict_get_set_other. intros ->. now apply Hk'.
Qed.

Lemma same_outside_trans (keys : list string) (d1 d2 d3 : dict) :
  same_outside keys d1 d2 -> same_outside keys d2 d3 -> same_outside keys d1 d3.
Proof.
  intros H12 H23 k Hk. now rewrite H23, H12.
Qed.

(** ** The frame of [_validate_strategy] *)

Module ValidatorFrame.

Import FinancialAgentService.

Lemma scale_rec_frame (factor : pyfloat) (rec rec' : value) :
  scale_rec factor rec = Some rec' -> rec_frame rec rec'.
Proof.
  unfold scale_rec. destruct rec; simpl; try discriminate.
  destruct (dict_get "allocation_percentage" d) as [x|]; [|discriminate].
  destruct (py_mul x (VFloat factor)) as [y|]; [|discriminate].
  intros [= <-]. right. exists d, (dict_set "allocation_percentage" y d).
  split; [reflexivity|]. split; [reflexivity|].
  apply same_outside_set. now left.
Qed.

Lemma scale_all_frame (factor : pyfloat) (recs : list value) :
  Forall2 rec_frame recs (fst (scale_all factor recs)).
Proof.
  induction recs as [|rec rest IH]; simpl; [constructor|].
  destruct (scale_rec factor rec) as [rec'|] eqn:E; simpl.
  - destruct (scale_all factor rest) as [rest' ok]; simpl in *.
    constructor; [now apply scale_rec_frame with factor | exact IH].
  - constructor; [now left|].
    clear. induction rest; constructor; [now left | assumption].
Qed.

Lemma strategy_frame_refl (strategy : value) : strategy_frame strategy strategy.
Proof.
  destruct strategy; simpl; try reflexivity.
  exists d. split; [reflexivity|].
  split; [apply same_outside_refl|]. split; [|auto].
  intros recs H. exists recs. split; [assumption | now left].
Qed.

(** Writing the updated recommendations back. *)
Lemma with_items_frame (recs : value) (items : list value) (factor : pyfloat) :
  py_iter recs = Some items ->
  recs_frame recs (with_items recs (fst (scale_all factor items))).
Proof.
  destruct recs; simpl; try (now left).
  intros [= ->]. right. exists items, (fst (scale_all factor items)).
  split; [reflexivity|]. split; [reflexivity|]. apply scale_all_frame.
Qed.

Lemma adjust_allocations_frame (strategy : value) :
  strategy_frame strategy (fst (adjust_allocations strategy)).
Proof.
  unfold adjust_allocations.
  destruct (py_contains strategy "investment_recommendations") as [[|]|];
    try apply strategy_frame_refl.
  destruct (py_getitem strategy "investment_recommendations") as [recs|] eqn:Hget;
    try apply strategy_frame_refl.
  destruct (py_iter recs) as [items|] eqn:Hiter; try apply strategy_frame_refl.
  destruct (total_allocation items) as [total|]; try apply strategy_frame_refl.
  destruct (needs_adjusting total); try apply strategy_frame_refl.
  destruct (adjust_factor total) as [factor|]; try apply strategy_frame_refl.
  pose proof (with_items_frame recs items factor Hiter) as Hframe.
  destruct (scale_all factor items) as [items' ok]; simpl in Hframe.
  destruct strategy; simpl in *; try discriminate.
  exists (dict_set "investment_recommendations" (with_items recs items') d).
  split; [reflexivity|]. split; [|split].
  - apply same_outside_set. now left.
  - intros recs0 H0. rewrite Hget in H0. injection H0 as <-.
    eexists. split; [apply dict_get_set_same | exact Hframe].
  - intros H0. congruence.
Qed.

(** The second step leaves the strategy alone or stores a target. *)
Lemma clamp_emergency_fund_cases (strategy : value) (user_profile : UserProfile) :
  fst (clamp_emergency_fund strategy user_profile) = strategy
  \/ exists d x, strategy = VDict d
       /\ fst (clamp_emergency_fund strategy user_profile)
          = VDict (dict_set "emergency_fund_target" x d).
Proof.
  unfold clamp_emergency_fund.
  destruct (monthly_expenses user_profile) as [e|]; [|now left].
  destruct (ftruth e); [|now left].
  destruct strategy; simpl; try (now left).
  repeat case_match; simpl; try (now left); right; eauto.
Qed.

Lemma strategy_frame_set_target (strategy : value) (d : dict) (x : value) :
  strategy_frame strategy (VDict d) ->
  strategy_frame strategy (VDict (dict_set "emergency_fund_target" x d)).
Proof.
  destruct strategy; simpl; try discriminate.
  intros (d' & [= <-] & Hout & Hrecs & Hnone).
  exists (dict_set "emergency_fund_target" x d). split; [reflexivity|].
  assert (Hir : dict_get "investment_recommendations"
                  (dict_set "emergency_fund_target" x d)
                = dict_get "investment_recommendations" d)
    by (apply dict_get_set_other; discriminate).
  split; [|split].
  - eapply same_outside_trans; [exact Hout|].
    apply same_outside_set. right. now left.
  - intros recs H. rewrite Hir. now apply Hrecs.
  - intros H. rewrite Hir. now apply Hnone.
Qed.

End ValidatorFrame.

(** ** Arithmetic of [_validate_strategy] on finite numbers *)

Module ValidatorArith.

Import FinancialAgentService.

Lemma Qltb_comp (x x' y y' : Q) :
  (x == x')%Q -> (y == y')%Q -> Qltb x y = Qltb x' y'.
Proof.
  intros Hx Hy. unfold Qltb. f_equal. now apply Qleb_comp.
Qed.

Lemma finite_inv (x : value) (q : Q) :
  finite x = Some q ->
  exists n, as_number x = Some n /\ to_float n = Fin q.
Proof.
  unfold finite. destruct (as_number x) as [n|]; [|discriminate].
  destruct (to_float n) eqn:E; try discriminate.
  intros [= <-]. now exists n.
Qed.

Lemma percentage_of_inv (rec : value) (p : Q) :
  percentage_of rec = Some p ->
  exists r x n, rec = VDict r
    /\ dict_get "allocation_percentage" r = Some x
    /\ as_number x = Some n /\ to_float n = Fin p.
Proof.
  unfold percentage_of. destruct rec; simpl; try discriminate.
  destruct (dict_get "allocation_percentage" d) as [x|] eqn:E; [|discriminate].
  intros H. apply finite_inv in H as (n & Hn & Hf).
  now exists d, x, n.
Qed.

Lemma all_some_cons {A : Type} (o : option A) (l : list (option A)) (r : list A) :
  all_some (o :: l) = Some r ->
  exists a r', o = Some a /\ all_some l = Some r' /\ r = a :: r'.
Proof.
  simpl. destruct o as [a|]; [|discriminate].
  destruct (all_some l) as [r'|]; [|discriminate].
  intros [= <-]. now exists a, r'.
Qed.

Lemma num_add_finite (a b : number) (x y : Q) :
  to_float a = Fin x -> to_float b = Fin y ->
  exists z, to_float (num_add a b) = Fin z /\ (z == x + y)%Q.
Proof.
  intros Ha Hb.
  destruct a as [i|f], b as [j|g];
    cbn [to_float num_add fadd of_Z] in *; subst;
    try injection Ha as <-; try injection Hb as <-; cbn [fadd].
  - exists (inject_Z (i + j)). split; [reflexivity|].
    rewrite inject_Z_plus. reflexivity.
  - eexists. split; [reflexivity | apply Qred_correct].
  - eexists. split; [reflexivity | apply Qred_correct].
  - eexists. split; [reflexivity | apply Qred_correct].
Qed.

(** The total is the exact sum of the percentages. *)
Lemma sum_from_finite (recs : list value) :
  forall (ps : list Q) (acc : number) (a : Q),
    all_some (map percentage_of recs) = Some ps ->
    to_float acc = Fin a ->
    exists total t, sum_from acc recs = Some total
      /\ to_float total = Fin t /\ (t == a + Qsum ps)%Q.
Proof.
  induction recs as [|rec rest IH]; intros ps acc a Hps Hacc.
  - injection Hps as <-. exists acc, a. simpl. repeat split; auto. lra.
  - apply all_some_cons in Hps as (p & ps' & Hp & Hrest & ->).
    apply percentage_of_inv in Hp as (r & x & n & -> & Hx & Hn & Hf).
    destruct (num_add_finite acc n a p Hacc Hf) as (z & Hz & Hzq).
    destruct (IH ps' (num_add acc n) z Hrest Hz) as (total & t & Hs & Ht & Htq).
    exists total, t. simpl. rewrite Hx, Hn. repeat split; auto.
    simpl. lra.
Qed.

Lemma needs_adjusting_finite (total : number) (t : Q) :
  to_float total = Fin t ->
  needs_adjusting total = Qltb 1 (Qabs (t - 100)).
Proof.
  intros Ht. unfold needs_adjusting, num_gt.
  assert (E : num_abs (num_sub total (NFloat (Fin 100)))
              = NFloat (Fin (Qabs (Qred (t + Qred (- 100)))))).
  { destruct total; cbn [to_float of_Z] in Ht; subst;
      try injection Ht as <-; reflexivity. }
  rewrite E. cbn [num_lt to_float flt]. apply Qltb_comp; [reflexivity|].
  apply Qabs_wd. rewrite !Qred_correct. reflexivity.
Qed.

Lemma positive_total (total : number) (t : Q) :
  to_float total = Fin t ->
  num_gt total (NInt 0) = Qltb 0 t.
Proof.
  intros Ht. destruct total as [z|f]; cbn [to_float of_Z] in Ht; subst.
  - injection Ht as <-. unfold num_gt, num_lt, Qltb, Qle_bool. simpl.
    rewrite Z.mul_1_r. destruct z; reflexivity.
  - reflexivity.
Qed.

Lemma adjust_factor_finite (total : number) (t : Q) :
  to_float total = Fin t ->
  exists f, adjust_factor total = Some (Fin f)
    /\ ((0 < t)%Q -> (f == 100 / t)%Q)
    /\ ((t <= 0)%Q -> f = 1%Q).
Proof.
  intros Ht. unfold adjust_factor. rewrite (positive_total total t Ht).
  destruct (Qltb 0 t) eqn:E.
  - apply Qltb_lt in E. rewrite Ht. unfold fdiv.
    destruct (Qeq_bool t 0) eqn:E0.
    + apply Qeq_bool_eq in E0. lra.
    + eexists. split; [reflexivity|]. split.
      * intros _. apply Qred_correct.
      * intros H. lra.
  - apply Qltb_ge in E. exists 1%Q. split; [reflexivity|]. split.
    + intros H. lra.
    + reflexivity.
Qed.

Lemma scale_rec_finite (f : Q) (rec : value) (p : Q) :
  percentage_of rec = Some p ->
  exists rec' p', scale_rec (Fin f) rec = Some rec'
    /\ percentage_of rec' = Some p' /\ (p' == p * f)%Q.
Proof.
  intros Hp. apply percentage_of_inv in Hp as (r & x & n & -> & Hx & Hn & Hf).
  unfold scale_rec, py_mul, py_binop. simpl. rewrite Hx, Hn. simpl.
  assert (E : num_mul n (NFloat (Fin f)) = NFloat (Fin (Qred (p * f)))).
  { destruct n; cbn [to_float of_Z] in Hf; subst;
      try injection Hf as <-; reflexivity. }
  rewrite E. simpl.
  eexists. eexists. split; [reflexivity|].
  unfold percentage_of. simpl. rewrite dict_get_set_same. simpl.
  split; [reflexivity | apply Qred_correct].
Qed.

Lemma scale_all_finite (f : Q) (recs : list value) :
  forall ps, all_some (map percentage_of recs) = Some ps ->
    exists recs' ps', scale_all (Fin f) recs = (recs', true)
      /\ all_some (map percentage_of recs') = Some ps'
      /\ Forall2 (fun p p' => (p' == p * f)%Q) ps ps'.
Proof.
  induction recs as [|rec rest IH]; intros ps Hps.
  - injection Hps as <-. exists [], []. repeat split. constructor.
  - apply all_some_cons in Hps as (p & ps0 & Hp & Hrest & ->).
    destruct (scale_rec_finite f rec p Hp) as (rec' & p' & Hs & Hp' & Hq).
    destruct (IH ps0 Hrest) as (rest' & ps' & Hall & Hps' & Hf2).
    exists (rec' :: rest'), (p' :: ps'). simpl. rewrite Hs, Hall.
    split; [reflexivity|]. rewrite Hp', Hps'. simpl.
    split; [reflexivity|]. now constructor.
Qed.



(** What the first step does to a strategy with finite percentages. *)
Lemma adjust_allocations_finite (strategy : value) (ps : list Q) :
  percentages_of strategy = Some ps ->
  exists d recs, strategy = VDict d
    /\ dict_get "investment_recommendations" d = Some (VList recs)
    /\ all_some (map percentage_of recs) = Some ps
    /\ ((Qabs (Qsum ps - 100) <= 1)%Q
          /\ adjust_allocations strategy = (strategy, true)
        \/ (1 < Qabs (Qsum ps - 100))%Q
          /\ exists f recs' ps',
               adjust_allocations strategy
               = (VDict (dict_set "investment_recommendations" (VList recs') d), true)
               /\ all_some (map percentage_of recs') = Some ps'
               /\ Forall2 (fun p p' => (p' == p * f)%Q) ps ps'
               /\ ((0 < Qsum ps)%Q -> (f == 100 / Qsum ps)%Q)).
Proof.
  unfold percentages_of. destruct strategy; simpl; try discriminate.
  destruct (dict_get "investment_recommendations" d) as [[| | | | |recs|]|] eqn:Hget;
    try discriminate.
  intros Hps. exists d, recs. repeat split; auto.
  destruct (sum_from_finite recs ps (NInt 0) 0 Hps eq_refl)
    as (total & t & Hsum & Ht & Htq).
  assert (Hqt : (t == Qsum ps)%Q) by lra.
  unfold adjust_allocations. simpl. rewrite Hget. simpl.
  unfold total_allocation. rewrite Hsum.
  rewrite (needs_adjusting_finite total t Ht).
  rewrite (Qltb_comp 1 1 (Qabs (t - 100)) (Qabs (Qsum ps - 100)))
    by (try reflexivity; apply Qabs_wd; lra).
  destruct (Qltb 1 (Qabs (Qsum ps - 100))) eqn:E.
  - right. apply Qltb_lt in E. split; [exact E|].
    destruct (adjust_factor_finite total t Ht) as (f & Hf & Hpos & _).
    destruct (scale_all_finite f recs ps Hps) as (recs' & ps' & Hall & Hps' & Hf2).
    exists f, recs', ps'. rewrite Hf, Hall. repeat split; auto.
    intros H. rewrite Hpos by lra. now rewrite Hqt.
  - left. apply Qltb_ge in E. split; [exact E | reflexivity].
Qed.

End ValidatorArith.

(** ** The validator *)

Section Validator.

Import FinancialAgentService ValidatorFrame ValidatorArith.



Lemma compare_finite (x : value) (t b : Q) :
  finite x = Some t ->
  py_lt x (VFloat (Fin b)) = Some (Qltb t b)
  /\ py_gt x (VFloat (Fin b)) = Some (Qltb b t).
Proof.
  intros H. apply finite_inv in H as (n & Hn & Hf).
  unfold py_lt, py_gt, py_binop, num_gt. rewrite Hn. simpl.
  destruct n; cbn [to_float of_Z] in Hf; subst;
    try injection Hf as <-; split; reflexivity.
Qed.

Lemma times_finite (e : Q) (k : Z) :
  exists b, fmul (Fin e) (of_Z k) = Fin b /\ (b == inject_Z k * e)%Q.
Proof.
  eexists. split; [reflexivity|]. rewrite Qred_correct. ring.
Qed.

(** The second step on a strategy with a finite target, for known
    positive expenses. *)
Lemma clamp_emergency_fund_finite (d : dict) (user_profile : UserProfile)
  (e t : Q) (x : value) :
  monthly_expenses user_profile = Some (Fin e) -> (0 < e)%Q ->
  py_get (VDict d) "emergency_fund_target" (VInt 0) = Some x ->
  finite x = Some t ->
  exists lo hi, (lo == 3 * e)%Q /\ (hi == 12 * e)%Q
    /\ ((t < lo)%Q
          /\ fst (clamp_emergency_fund (VDict d) user_profile)
             = VDict (dict_set "emergency_fund_target" (VFloat (Fin lo)) d)
        \/ (hi < t)%Q
          /\ fst (clamp_emergency_fund (VDict d) user_profile)
             = VDict (dict_set "emergency_fund_target" (VFloat (Fin hi)) d)
        \/ (lo <= t <= hi)%Q
          /\ fst (clamp_emergency_fund (VDict d) user_profile) = VDict d).
Proof.
  intros He Hpos Hget Hfin.
  destruct (times_finite e 3) as (lo & Hlo & Hloq).
  destruct (times_finite e 12) as (hi & Hhi & Hhiq).
  exists lo, hi. split; [exact Hloq|]. split; [exact Hhiq|].
  unfold clamp_emergency_fund. rewrite He.
  assert (Ht : ftruth (Fin e) = true).
  { simpl. destruct (Qeq_bool e 0) eqn:E; [|reflexivity].
    apply Qeq_bool_eq in E. lra. }
  rewrite Ht, Hget, Hlo, Hhi.
  destruct (compare_finite x t lo Hfin) as [-> _].
  destruct (compare_finite x t hi Hfin) as [_ ->].
  destruct (Qltb t lo) eqn:E1.
  - apply Qltb_lt in E1. left. split; [exact E1 | reflexivity].
  - apply Qltb_ge in E1. destruct (Qltb hi t) eqn:E2.
    + apply Qltb_lt in E2. right. left. split; [exact E2 | reflexivity].
    + apply Qltb_ge in E2. right. right. split; [split; assumption | reflexivity].
Qed.


(** C10, as amended: the validator changes nothing but the
    [allocation_percentage] entries of the recommendations and the
    [emergency_fund_target] field.  A value that is not a mapping is
    returned as it is; for a mapping every other key keeps its value, the
    recommendations keep their number and order, and every recommendation
    keeps all its other entries.  This holds on every path, so also when
    an internal step raises and the handler returns the mapping in the
    state reached. *)
Theorem validate_strategy_frame (strategy : value) (user_profile : UserProfile) :
  strategy_frame strategy (_validate_strategy strategy user_profile).
Proof.
  unfold _validate_strategy.
  pose proof (adjust_allocations_frame strategy) as Hframe.
  destruct (adjust_allocations strategy) as [strategy1 ok]; simpl in Hframe.
  destruct ok; [|exact Hframe].
  destruct (clamp_emergency_fund_cases strategy1 user_profile)
    as [-> | (d & x & -> & ->)]; [exact Hframe|].
  now apply strategy_frame_set_target.
Qed.

(** C10, the claim as stated fails: the second recommendation has no
    percentage, so the adjusting loop raises after it has doubled the
    first one, and the mapping the handler returns is not the input. *)
Lemma validate_strategy_partial_update :
  snd (adjust_allocations incomplete_strategy) = false
  /\ _validate_strategy incomplete_strategy scenario_profile
     = VDict [("investment_recommendations",
                VList [VDict [("asset_class", VStr "Stocks");
                              ("allocation_percentage", VFloat (Fin 100))];
                       VDict [("asset_class", VStr "Bonds")]]);
              ("emergency_fund_target", VInt 30000)]
  /\ _validate_strategy incomplete_strategy scenario_profile
     <> incomplete_strategy.
Proof.
  split; [reflexivity|]. split; [reflexivity|].
  vm_compute. intros H. discriminate H.
Qed.








(** The three cases of the emergency fund scenario, for monthly expenses
    of 4000: 1000 becomes 12000, 60000 becomes 48000, 30000 stays. *)
Example emergency_fund_scenario :
  _validate_strategy (sample_strategy [VInt 60; VInt 40] (VInt 1000))
    scenario_profile
  = sample_strategy [VInt 60; VInt 40] (VFloat (Fin 12000))
  /\ _validate_strategy (sample_strategy [VInt 60; VInt 40] (VInt 60000))
       scenario_profile
     = sample_strategy [VInt 60; VInt 40] (VFloat (Fin 48000))
  /\ _validate_strategy (sample_strategy [VInt 60; VInt 40] (VInt 30000))
       scenario_profile
     = sample_strategy [VInt 60; VInt 40] (VInt 30000).
Proof. repeat split. Qed.

End Validator.

(** ** The fallback synthesizers *)

Section Fallback.

Import FinancialAgentService.

(** The normalising division never fails: the two basic allocations
    always have a positive sum. *)
Lemma basic_allocation_positive (risk_level : RiskLevel) (a : Z) :
  (0 < fst (basic_allocation risk_level a) + snd (basic_allocation risk_level a))%Z.
Proof. destruct risk_level; unfold basic_allocation; cbn [fst snd]; lia. Qed.

Lemma share_defined (part total : Z) :
  (0 < total)%Z -> exists q, share part total = Some (Fin q).
Proof.
  intros H. unfold share, fdiv, of_Z.
  destruct (Qeq_bool (inject_Z total) 0) eqn:E.
  - apply Qeq_bool_eq in E. unfold Qeq, inject_Z in E. simpl in E. lia.
  - simpl. eexists. reflexivity.
Qed.

(** [_generate_fallback_strategy] returns for every profile. *)
Lemma generate_fallback_strategy_total (user_profile : UserProfile) :
  exists d, _generate_fallback_strategy user_profile = Some (VDict d).
Proof.
  unfold _generate_fallback_strategy.
  pose proof (basic_allocation_positive (risk_tolerance user_profile)
                (age user_profile)) as Hpos.
  destruct (basic_allocation (risk_tolerance user_profile) (age user_profile))
    as [stock bond]; simpl in Hpos.
  destruct (share_defined stock (stock + bond) Hpos) as (qs & ->).
  destruct (share_defined bond (stock + bond) Hpos) as (qb & ->).
  assert (E : exists f, fdiv (fmul (annual_income user_profile) (Fin (15 # 100)))
                          (of_Z 12) = Some f).
  { unfold fdiv, of_Z.
    replace (Qeq_bool (inject_Z 12) 0) with false by reflexivity.
    destruct (fmul (annual_income user_profile) (Fin (15 # 100)));
      simpl; eexists; reflexivity. }
  destruct E as (f & ->). eexists. reflexivity.
Qed.

(** X1: the strategy service raises on no path: whatever the chain answers
    or raises and whatever the profile holds, a strategy is returned; in
    particular the divisor of the fallback allocation is never zero. *)
Lemma generate_financial_strategy_total
  (strategy_chain : UserProfile -> value -> option string)
  (user_profile : UserProfile) (preferences : value) :
  exists strategy,
    generate_financial_strategy strategy_chain user_profile preferences
    = Some strategy.
Proof.
  unfold generate_financial_strategy.
  destruct (generate_fallback_strategy_total user_profile) as (d & Hd).
  destruct (strategy_chain user_profile preferences) as [result|]; [|eauto].
  destruct (Json.loads (Text.strip result)); eauto.
Qed.

Example scenario_profile_valid : UserProfile_valid scenario_profile.
Proof.
  repeat split; simpl; try lia; discriminate.
Qed.




(** C7, as amended: for the malformed text of the scenario the risk
    assessment is the fixed fallback assessment, never an error: risk
    level moderate, overall risk score 0.5, the single Market Volatility
    factor, and confidence score 0.7.  Nothing is extracted from the
    text. *)
Theorem malformed_risk_text_gives_fallback
  (financial_data : value) (scenario_type : string) :
  let assessment :=
    assess_financial_risk (answering malformed_risk_text)
      financial_data scenario_type in
  assessment = _generate_fallback_risk_assessment
  /\ py_getitem assessment "risk_level" = Some (VStr "moderate")
  /\ py_getitem assessment "confidence_score" = Some (VFloat (Fin (7 # 10)))
  /\ py_getitem assessment "overall_risk_score" = Some (VFloat (Fin (5 # 10)))
  /\ exists factor, py_getitem assessment "risk_factors" = Some (VList [factor])
       /\ py_getitem factor "factor_name" = Some (VStr "Market Volatility").
Proof.
  assert (E : assess_financial_risk (answering malformed_risk_text)
                financial_data scenario_type
              = _generate_fallback_risk_assessment) by reflexivity.
  cbv zeta. rewrite E. repeat split. eexists. split; reflexivity.
Qed.

(** C7, the claim as stated fails: the confidence score returned for the
    text of the scenario is the 0.7 of the fallback, not the 0.8 the
    text mentions. *)
Lemma malformed_risk_text_confidence :
  py_getitem
    (assess_financial_risk (answering malformed_risk_text)
       sample_financial_data "general")
    "confidence_score" = Some (VFloat (Fin (7 # 10)))
  /\ ~ (7 # 10 == 8 # 10)%Q.
Proof.
  split; [reflexivity|]. intros H. discriminate H.
Qed.

End Fallback.

(** ** What the matchers hand to their continuation *)

Module MatcherFacts.

Import Text.

Section Continuations.

Context {A : Type}.
Implicit Types (k : string -> option A) (p : ascii -> bool).








End Continuations.

Lemma length_app (s t : string) :
  String.length (s ++ t) = (String.length s + String.length t)%nat.
Proof. induction s; simpl; auto. Qed.






(** *** The decimal literals [float] reads *)



Lemma count_digits_run (ds : string) :
  all_chars is_digit ds = true -> count_digits ds = String.length ds.
Proof.
  induction ds as [|c ds IH]; simpl; [reflexivity|].
  intros H. apply andb_true_iff in H as [-> H]. now rewrite IH.
Qed.



End MatcherFacts.

(** ** The JSON reader never runs out of fuel *)

Module JsonFacts.

Import Text Json.

Local Open Scope nat_scope.

#[local] Abbreviation len := String.length.

Lemma skip_ws_length (s : string) : len (skip_ws s) <= len s.
Proof.
  induction s as [|c s IH]; simpl; [lia|].
  destruct (is_ws c); simpl; lia.
Qed.

Lemma digits_of_length (s : string) :
  forall acc, len (snd (digits_of acc s)) <= len s.
Proof.
  induction s as [|c s IH]; intros acc; cbn [digits_of]; [simpl; lia|].
  destruct (is_digit c); [|simpl; lia].
  specialize (IH (10 * acc + digit_value c)%Z). cbn [String.length]. lia.
Qed.

Lemma digits_of_rest (s rest : string) (acc v : Z) :
  digits_of acc s = (v, rest) -> len rest <= len s.
Proof.
  intros H. pose proof (digits_of_length s acc) as L. now rewrite H in L.
Qed.

Lemma scanstring_from_length (s : string) :
  forall skip t rest,
    scanstring_from skip s = Some (t, rest) -> len rest < len s.
Proof.
  induction s as [|c s IH]; intros skip t rest H; simpl in H; [discriminate|].
  destruct skip as [|n].
  - destruct (is_dquote c).
    { injection H as _ <-. simpl. lia. }
    destruct (Ascii.eqb c backslash).
    { destruct (escape s) as [[e n]|]; [|discriminate].
      destruct (scanstring_from n s) as [[u r]|] eqn:E; [|discriminate].
      injection H as _ <-. apply IH in E. simpl. lia. }
    destruct (code c <? 32)%N; [discriminate|].
    destruct (scanstring_from 0 s) as [[u r]|] eqn:E; [|discriminate].
    injection H as _ <-. apply IH in E. simpl. lia.
  - apply IH in H. simpl. lia.
Qed.

Lemma drop_length (n : nat) (s : string) : len (drop n s) = len s - n.
Proof.
  revert s. induction n as [|n IH]; intros s; simpl; [lia|].
  destruct s as [|c s]; simpl; [reflexivity | apply IH].
Qed.

Lemma is_prefix_length (w s : string) : is_prefix w s = true -> len w <= len s.
Proof.
  revert s. induction w as [|a w IH]; intros s H; simpl; [lia|].
  destruct s as [|b s]; simpl in *; [discriminate|].
  apply andb_true_iff in H as [_ H]. apply IH in H. lia.
Qed.

Lemma keyword_length (w : string) (v r : value) (s rest : string) :
  0 < len w -> keyword w v s = Some (r, rest) -> len rest < len s.
Proof.
  unfold keyword. intros Hw H.
  destruct (is_prefix w s) eqn:E; [|discriminate].
  injection H as _ <-. apply is_prefix_length in E.
  rewrite drop_length. lia.
Qed.

Lemma scan_integer_length (s rest : string) (i : Z) :
  scan_integer s = Some (i, rest) -> len rest < len s.
Proof.
  unfold scan_integer. destruct s as [|c s]; [discriminate|].
  destruct (Ascii.eqb c "0").
  { intros [= _ <-]. simpl. lia. }
  destruct (is_digit c) eqn:E; [|discriminate].
  cbn [digits_of]. rewrite E. intros [= H].
  apply digits_of_rest in H. simpl. lia.
Qed.

Lemma scan_frac_length (m m' : Z) (n : nat) (s rest : string) :
  scan_frac m s = Some (m', n, rest) -> len rest < len s.
Proof.
  unfold scan_frac. destruct s as [|c s]; [discriminate|].
  destruct (is_point c && starts_with_digit s); [|discriminate].
  destruct (digits_of m s) as [m0 r] eqn:E. intros [= _ _ <-].
  apply digits_of_rest in E. simpl. lia.
Qed.

Lemma scan_exp_length (e : Z) (s rest : string) :
  scan_exp s = Some (e, rest) -> len rest < len s.
Proof.
  unfold scan_exp. destruct s as [|c s]; [discriminate|].
  destruct (Ascii.eqb c "e" || Ascii.eqb c "E"); [|discriminate].
  destruct s as [|sg s]; [discriminate|].
  destruct ((Ascii.eqb sg "-" || Ascii.eqb sg "+") && starts_with_digit s).
  - destruct (digits_of 0 s) as [e0 r] eqn:E. intros [= _ <-].
    apply digits_of_rest in E. simpl. lia.
  - destruct (is_digit sg); [|discriminate].
    intros H.
    assert (H' : digits_of 0 (String sg s) = (e, rest)) by congruence.
    apply digits_of_rest in H'. cbn [String.length] in *. lia.
Qed.

Lemma scan_number_length (s rest : string) (v : value) :
  scan_number s = Some (v, rest) -> len rest < len s.
Proof.
  unfold scan_number.
  set (split := match s with
                | String c s' => if Ascii.eqb c "-" then (true, s') else (false, s)
                | EmptyString => (false, s)
                end).
  assert (Hd : len (snd split) <= len s).
  { subst split. destruct s as [|c s]; simpl; [lia|].
    destruct (Ascii.eqb c "-"); simpl; lia. }
  destruct split as [negative digits]. simpl in Hd.
  destruct (scan_integer digits) as [[i r]|] eqn:Ei; [|discriminate].
  apply scan_integer_length in Ei.
  destruct (scan_frac i r) as [[[m n] r1]|] eqn:Ef.
  - apply scan_frac_length in Ef.
    destruct (scan_exp r1) as [[e r2]|] eqn:Ee.
    + apply scan_exp_length in Ee. intros [= _ <-]. lia.
    + intros [= _ <-]. lia.
  - destruct (scan_exp r) as [[e r2]|] eqn:Ee.
    + apply scan_exp_length in Ee. intros [= _ <-]. lia.
    + intros [= _ <-]. lia.
Qed.

Lemma scan_scalar_cases (s : string) :
  scan_scalar s = Invalid
  \/ exists v rest, scan_scalar s = Scanned v rest /\ len rest < len s.
Proof.
  unfold scan_scalar.
  repeat match goal with
  | |- context [keyword ?w ?v s] =>
      let E := fresh "E" in
      destruct (keyword w v s) as [[? ?]|] eqn:E;
      [ right; eexists; eexists; split; [reflexivity|];
        apply keyword_length in E; [exact E | simpl; lia] | ]
  | |- context [scan_number s] =>
      let E := fresh "E" in
      destruct (scan_number s) as [[? ?]|] eqn:E;
      [ right; eexists; eexists; split; [reflexivity|];
        now apply scan_number_length in E | ]
  end.
  now left.
Qed.

(** One step of each reader. *)
Lemma scan_once_step (n : nat) (s : string) :
  scan_once (S n) s
  = match s with
    | EmptyString => Invalid
    | String c s' =>
        if is_dquote c then
          match scanstring s' with
          | Some (t, rest) => Scanned (VStr t) rest
          | None => Invalid
          end
        else if Ascii.eqb c "{" then
          match skip_ws s' with
          | String c1 s1 =>
              if Ascii.eqb c1 "}" then Scanned (VDict []) s1
              else if is_dquote c1 then object_members n [] s1
              else Invalid
          | EmptyString => Invalid
          end
        else if Ascii.eqb c "[" then
          match skip_ws s' with
          | String c1 s1 =>
              if Ascii.eqb c1 "]" then Scanned (VList []) s1
              else array_items n [] (String c1 s1)
          | EmptyString => Invalid
          end
        else scan_scalar s
    end.
Proof. reflexivity. Qed.

Lemma array_items_step (n : nat) (acc : list value) (s : string) :
  array_items (S n) acc s
  = match scan_once n s with
    | Scanned v rest =>
        match skip_ws rest with
        | String c r =>
            if Ascii.eqb c "]" then Scanned (VList (rev (v :: acc))) r
            else if Ascii.eqb c "," then array_items n (v :: acc) (skip_ws r)
            else Invalid
        | EmptyString => Invalid
        end
    | Invalid => Invalid
    | Exhausted => Exhausted
    end.
Proof. reflexivity. Qed.

Lemma object_members_step (n : nat) (acc : list (string * value)) (s : string) :
  object_members (S n) acc s
  = match scanstring s with
    | None => Invalid
    | Some (key, rest) =>
        match skip_ws rest with
        | String c r =>
            if Ascii.eqb c ":" then
              match scan_once n (skip_ws r) with
              | Scanned v rest' =>
                  match skip_ws rest' with
                  | String c' r' =>
                      if Ascii.eqb c' "}" then
                        Scanned (VDict (dict_of_pairs (rev ((key, v) :: acc)))) r'
                      else if Ascii.eqb c' "," then
                        match skip_ws r' with
                        | String q r'' =>
                            if is_dquote q
                            then object_members n ((key, v) :: acc) r''
                            else Invalid
                        | EmptyString => Invalid
                        end
                      else Invalid
                  | EmptyString => Invalid
                  end
              | Invalid => Invalid
              | Exhausted => Exhausted
              end
            else Invalid
        | EmptyString => Invalid
        end
    end.
Proof. reflexivity. Qed.

(** Case analysis on the innermost scrutinee of a hypothesis. *)
Ltac case_in H :=
  match type of H with
  | context [match ?x with _ => _ end] =>
      lazymatch x with
      | context [match _ with _ => _ end] => fail
      | _ => destruct x eqn:?
      end
  end.

(** Turns what is known of the positions into facts about lengths. *)
Ltac lengths :=
  repeat match goal with
  | H : skip_ws ?a = _ |- _ =>
      let F := fresh "F" in
      pose proof (skip_ws_length a) as F; rewrite H in F;
      cbn [String.length] in F; clear H
  | H : scanstring ?a = Some _ |- _ =>
      apply scanstring_from_length in H
  end;
  repeat match goal with
  | H : context [skip_ws ?a] |- _ =>
      lazymatch goal with
      | _ : String.length (skip_ws a) <= String.length a |- _ => fail
      | _ => pose proof (skip_ws_length a)
      end
  | |- context [skip_ws ?a] =>
      lazymatch goal with
      | _ : String.length (skip_ws a) <= String.length a |- _ => fail
      | _ => pose proof (skip_ws_length a)
      end
  end;
  cbn [String.length] in *.

(** A reader ends strictly after the position it started at. *)
Lemma scan_length (n : nat) :
  (forall s v rest, scan_once n s = Scanned v rest -> len rest < len s)
  /\ (forall acc s v rest, array_items n acc s = Scanned v rest -> len rest < len s)
  /\ (forall acc s v rest, object_members n acc s = Scanned v rest -> len rest < len s).
Proof.
  induction n as [|n (IH1 & IH2 & IH3)]; [repeat split; discriminate|].
  split; [|split].
  - intros s v rest H. rewrite scan_once_step in H.
    destruct s as [|c s']; [discriminate|].
    destruct (scan_scalar_cases (String c s')) as [E | (v0 & r0 & E & L)];
      rewrite E in H;
      repeat case_in H; try discriminate;
      try (injection H as <- <-);
      try (apply IH2 in H); try (apply IH3 in H);
      lengths; try lia.
  - intros acc s v rest H. rewrite array_items_step in H.
    repeat case_in H; try discriminate;
      try (injection H as <- <-);
      try (apply IH2 in H);
      repeat match goal with
      | E : scan_once n _ = Scanned _ _ |- _ => apply IH1 in E
      end;
      lengths; lia.
  - intros acc s v rest H. rewrite object_members_step in H.
    repeat case_in H; try discriminate;
      try (injection H as <- <-);
      try (apply IH3 in H);
      repeat match goal with
      | E : scan_once n _ = Scanned _ _ |- _ => apply IH1 in E
      end;
      lengths; lia.
Qed.

(** Fuel above twice the length of the text is never used up. *)
Lemma scan_fuel (n : nat) :
  (forall s, 2 * len s < n -> scan_once n s <> Exhausted)
  /\ (forall acc s, 2 * len s + 1 < n -> array_items n acc s <> Exhausted)
  /\ (forall acc s, 2 * len s + 1 < n -> object_members n acc s <> Exhausted).
Proof.
  induction n as [|n (IH1 & IH2 & IH3)]; [repeat split; intros; lia|].
  destruct (scan_length n) as (L1 & _ & _).
  split; [|split].
  - intros s Hs H. rewrite scan_once_step in H.
    destruct s as [|c s']; [discriminate|].
    destruct (scan_scalar_cases (String c s')) as [E | (v0 & r0 & E & L)];
      rewrite E in H;
      repeat case_in H; try discriminate;
      first [ eapply IH2; [|exact H] | eapply IH3; [|exact H] ];
      clear H; lengths; lia.
  - intros acc s Hs H. rewrite array_items_step in H.
    repeat case_in H; try discriminate;
      repeat match goal with
      | E : scan_once n _ = Scanned _ _ |- _ => apply L1 in E
      end;
      first [ eapply IH2; [|exact H]
            | match goal with
              | E : scan_once n _ = Exhausted |- _ => eapply IH1; [|exact E]
              end ];
      clear H; lengths; lia.
  - intros acc s Hs H. rewrite object_members_step in H.
    repeat case_in H; try discriminate;
      repeat match goal with
      | E : scan_once n _ = Scanned _ _ |- _ => apply L1 in E
      end;
      first [ eapply IH3; [|exact H]
            | match goal with
              | E : scan_once n _ = Exhausted |- _ => eapply IH1; [|exact E]
              end ];
      clear H; lengths; lia.
Qed.

(** [loads] gives its reader enough fuel. *)
Lemma loads_fuel (s : string) :
  scan_once (S (2 * len s)) (skip_ws s) <> Exhausted.
Proof.
  apply (scan_fuel (S (2 * len s))).
  pose proof (skip_ws_length s). lia.
Qed.

End JsonFacts.

(** ** The compliance fallback parser *)

Section Compliance.

Import Text MatcherFacts RAGService.





(** A completion that is valid JSON is the analysis. *)
Lemma analyze_compliance_parsed
  (retrieve_relevant_context : string -> string)
  (compliance_chain : string -> string -> option string)
  (document_text result : string) (analysis : value) :
  compliance_chain document_text (retrieve_relevant_context document_text)
  = Some result ->
  Json.loads (strip result) = Json.Parsed analysis ->
  analyze_compliance retrieve_relevant_context compliance_chain document_text
  = analysis.
Proof.
  intros Hrun Hloads. unfold analyze_compliance. now rewrite Hrun, Hloads.
Qed.





(** The boundary cases of the confidence score. *)
Example fallback_confidence_boundaries :
  py_getitem (_parse_fallback_response "confidence_score: 0") "confidence_score"
  = Some (VFloat (Fin 0))
  /\ py_getitem (_parse_fallback_response "confidence_score: 1") "confidence_score"
     = Some (VFloat (Fin 1))
  /\ py_getitem (_parse_fallback_response "confidence_score: -0.01") "confidence_score"
     = Some (VFloat (Fin (1 # 100)))
  /\ py_getitem (_parse_fallback_response "confidence_score: 1.01") "confidence_score"
     = Some (VFloat (Fin 1))
  /\ py_getitem (_parse_fallback_response "confidence_score around 0.8") "confidence_score"
     = Some (VFloat (Fin (4 # 5))).
Proof. repeat split; reflexivity. Qed.





End Compliance.

(** * Further properties *)

(** ** Rounding to one decimal *)

Module RoundingFacts.

Lemma inject_Z_sub (x y : Z) : (inject_Z (x - y) == inject_Z x - inject_Z y)%Q.
Proof.
  unfold Z.sub. rewrite inject_Z_plus, inject_Z_opp. reflexivity.
Qed.

Lemma inject_Z_succ (x : Z) : (inject_Z (x + 1) == inject_Z x + 1)%Q.
Proof. rewrite inject_Z_plus. reflexivity. Qed.

Lemma Qfloor_bounds (q : Q) :
  (inject_Z (Qfloor q) <= q)%Q /\ (q < inject_Z (Qfloor q) + 1)%Q.
Proof.
  split; [apply Qfloor_le|].
  rewrite <- inject_Z_succ. apply Qlt_floor.
Qed.

Lemma Qfloor_unique (q : Q) (k : Z) :
  (inject_Z k <= q)%Q -> (q < inject_Z k + 1)%Q -> Qfloor q = k.
Proof.
  intros Hlo Hhi. destruct (Qfloor_bounds q) as [Flo Fhi].
  assert (H1 : (inject_Z k < inject_Z (Qfloor q + 1))%Q)
    by (rewrite inject_Z_succ; lra).
  assert (H2 : (inject_Z (Qfloor q) < inject_Z (k + 1))%Q)
    by (rewrite inject_Z_succ; lra).
  rewrite <- Zlt_Qlt in H1, H2. lia.
Qed.

(** What [round_half_even] answers, by the fractional part. *)
Lemma round_half_even_cases (q : Q) (a : Z) (f : Q) :
  (q == inject_Z a + f)%Q -> (0 <= f)%Q -> (f < 1)%Q ->
  ((f < 1 # 2)%Q -> round_half_even q = a)
  /\ ((1 # 2 < f)%Q -> round_half_even q = (a + 1)%Z)
  /\ ((f == 1 # 2)%Q ->
        round_half_even q = if Z.even a then a else (a + 1)%Z).
Proof.
  intros Hq H0 H1.
  assert (Ha : Qfloor q = a) by (apply Qfloor_unique; lra).
  unfold round_half_even. rewrite Ha.
  assert (Hf : (q - inject_Z a == f)%Q) by lra.
  rewrite (ValidatorArith.Qltb_comp (q - inject_Z a) f (1 # 2) (1 # 2) Hf)
    by reflexivity.
  rewrite (ValidatorArith.Qltb_comp (1 # 2) (1 # 2) (q - inject_Z a) f)
    by (try reflexivity; exact Hf).
  repeat split; intros H.
  - apply Qltb_lt in H. now rewrite H.
  - assert (E1 : Qltb f (1 # 2) = false) by (apply Qltb_ge; lra).
    apply Qltb_lt in H. now rewrite E1, H.
  - assert (E1 : Qltb f (1 # 2) = false) by (apply Qltb_ge; lra).
    assert (E2 : Qltb (1 # 2) f = false) by (apply Qltb_ge; lra).
    now rewrite E1, E2.
Qed.

(** Two numbers with an even integer sum round to integers with that
    sum. *)
Lemma round_half_even_complement (q r : Q) (n : Z) :
  Z.even n = true -> (q + r == inject_Z n)%Q ->
  (round_half_even q + round_half_even r = n)%Z.
Proof.
  intros Hn Hsum.
  set (a := Qfloor q). destruct (Qfloor_bounds q) as [Flo Fhi]. fold a in Flo, Fhi.
  set (f := (q - inject_Z a)%Q).
  assert (Hq : (q == inject_Z a + f)%Q) by (unfold f; lra).
  assert (F0 : (0 <= f)%Q) by (unfold f; lra).
  assert (F1 : (f < 1)%Q) by (unfold f; lra).
  destruct (round_half_even_cases q a f Hq F0 F1) as (Qlow & Qhigh & Qtie).
  destruct (Qlt_le_dec 0 f) as [Fpos | Fzero].
  - (* the other number has the fractional part [1 - f] *)
    assert (Hr : (r == inject_Z (n - a - 1) + (1 - f))%Q).
    { rewrite !inject_Z_sub. change (inject_Z 1) with 1%Q. lra. }
    destruct (round_half_even_cases r (n - a - 1) (1 - f) Hr ltac:(lra) ltac:(lra))
      as (Rlow & Rhigh & Rtie).
    destruct (Qlt_le_dec f (1 # 2)) as [Hlt | Hge].
    + rewrite (Qlow Hlt), (Rhigh ltac:(lra)). lia.
    + destruct (Qlt_le_dec (1 # 2) f) as [Hgt | Hle].
      * rewrite (Qhigh Hgt), (Rlow ltac:(lra)). lia.
      * assert (Htie : (f == 1 # 2)%Q) by (apply Qle_antisym; assumption).
        rewrite (Qtie Htie), (Rtie ltac:(lra)).
        replace (Z.even (n - a - 1)) with (negb (Z.even a)).
        { destruct (Z.even a); simpl; lia. }
        rewrite !Z.even_sub, Hn. simpl. now destruct (Z.even a).
  - assert (Hf : (f == 0)%Q) by (apply Qle_antisym; assumption).
    assert (Hr : (r == inject_Z (n - a) + 0)%Q).
    { rewrite inject_Z_sub. lra. }
    destruct (round_half_even_cases r (n - a) 0 Hr ltac:(lra) ltac:(lra))
      as (Rlow & _ & _).
    rewrite (Qlow ltac:(lra)), (Rlow ltac:(lra)). lia.
Qed.

Lemma round_half_even_nonneg (q : Q) : (0 <= q)%Q -> (0 <= round_half_even q)%Z.
Proof.
  intros Hq. destruct (Qfloor_bounds q) as [Flo Fhi].
  assert (H0 : (0 <= Qfloor q)%Z).
  { assert (H : (inject_Z (-1) < inject_Z (Qfloor q))%Q).
    { change (inject_Z (-1)) with (-1 # 1)%Q. lra. }
    rewrite <- Zlt_Qlt in H. lia. }
  unfold round_half_even.
  repeat match goal with |- context [if ?b then _ else _] => destruct b end; lia.
Qed.

End RoundingFacts.

(** ** The fallback strategy *)

Section FallbackStrategy.

Import FinancialAgentService ValidatorFrame ValidatorArith RoundingFacts.

Lemma share_value (part total : Z) :
  (0 < total)%Z ->
  exists q, share part total = Some (Fin q)
            /\ (q == inject_Z part / inject_Z total * 100)%Q.
Proof.
  intros H. unfold share, fdiv, of_Z.
  destruct (Qeq_bool (inject_Z total) 0) eqn:E.
  - apply Qeq_bool_eq in E. unfold Qeq, inject_Z in E. simpl in E. lia.
  - simpl. eexists. split; [reflexivity|].
    rewrite !Qred_correct. reflexivity.
Qed.

(** What the fallback strategy holds: the two percentages are tenths, and
    the tenths add up to 1000. *)
Lemma fallback_facts (user_profile : UserProfile) :
  exists d zs zb,
    _generate_fallback_strategy user_profile = Some (VDict d)
    /\ percentages_of (VDict d)
       = Some [Qred (inject_Z zs / 10); Qred (inject_Z zb / 10)]
    /\ (zs + zb = 1000)%Z
    /\ dict_get "emergency_fund_target" d
       = Some (fallback_emergency_fund user_profile)
    /\ let alloc := basic_allocation (risk_tolerance user_profile)
                      (age user_profile) in
       ((0 <= fst alloc)%Z -> (0 <= zs)%Z)
       /\ ((0 <= snd alloc)%Z -> (0 <= zb)%Z).
Proof.
  unfold _generate_fallback_strategy.
  pose proof (basic_allocation_positive (risk_tolerance user_profile)
                (age user_profile)) as Hpos.
  destruct (basic_allocation (risk_tolerance user_profile) (age user_profile))
    as [stock bond]; cbn [fst snd] in *.
  destruct (share_value stock (stock + bond) Hpos) as (qs & -> & Hqs).
  destruct (share_value bond (stock + bond) Hpos) as (qb & -> & Hqb).
  assert (E : exists f, fdiv (fmul (annual_income user_profile) (Fin (15 # 100)))
                          (of_Z 12) = Some f).
  { unfold fdiv, of_Z.
    replace (Qeq_bool (inject_Z 12) 0) with false by reflexivity.
    destruct (fmul (annual_income user_profile) (Fin (15 # 100)));
      simpl; eexists; reflexivity. }
  destruct E as (f & ->).
  assert (Htotal : ~ (inject_Z (stock + bond) == 0)%Q).
  { unfold Qeq, inject_Z. simpl. lia. }
  eexists. exists (round_half_even (qs * 10)), (round_half_even (qb * 10)).
  split; [reflexivity|]. split; [reflexivity|]. split; [|split; [reflexivity|]].
  - apply round_half_even_complement; [reflexivity|].
    rewrite Hqs, Hqb. change (inject_Z 1000) with 1000%Q.
    transitivity ((inject_Z stock + inject_Z bond) / inject_Z (stock + bond) * 1000)%Q.
    + field. exact Htotal.
    + rewrite <- inject_Z_plus. field. exact Htotal.
  - assert (Hden : (0 < inject_Z (stock + bond))%Q).
    { unfold Qlt, inject_Z. simpl. lia. }
    split; intros H; apply round_half_even_nonneg.
    + rewrite Hqs.
      assert (0 <= inject_Z stock / inject_Z (stock + bond))%Q.
      { apply Qle_shift_div_l; [exact Hden|].
        unfold Qle, inject_Z. simpl. lia. }
      nra.
    + rewrite Hqb.
      assert (0 <= inject_Z bond / inject_Z (stock + bond))%Q.
      { apply Qle_shift_div_l; [exact Hden|].
        unfold Qle, inject_Z. simpl. lia. }
      nra.
Qed.

Lemma tenths_sum (zs zb : Z) :
  (zs + zb = 1000)%Z ->
  (Qred (inject_Z zs / 10) + Qred (inject_Z zb / 10) == 100)%Q.
Proof.
  intros H. rewrite !Qred_correct.
  assert (E : (inject_Z zs + inject_Z zb == 1000)%Q).
  { rewrite <- inject_Z_plus, H. reflexivity. }
  transitivity ((inject_Z zs + inject_Z zb) / 10)%Q; [field|].
  rewrite E. reflexivity.
Qed.

(** X2: for a profile the schema admits (age 18 to 100) both percentages
    of the fallback strategy lie between 0 and 100, as the schema of a
    recommendation demands, and after they were rounded to one decimal
    they still add up to exactly 100. *)
Theorem fallback_allocations_in_range (user_profile : UserProfile) :
  UserProfile_valid user_profile ->
  exists strategy stocks bonds,
    _generate_fallback_strategy user_profile = Some strategy
    /\ percentages_of strategy = Some [stocks; bonds]
    /\ (0 <= stocks <= 100)%Q /\ (0 <= bonds <= 100)%Q
    /\ (stocks + bonds == 100)%Q.
Proof.
  intros (Hage & _).
  destruct (fallback_facts user_profile)
    as (d & zs & zb & Hd & Hps & Hsum & _ & Hs & Hb).
  assert (Hs0 : (0 <= zs)%Z).
  { apply Hs. destruct (risk_tolerance user_profile);
      unfold basic_allocation; cbn [fst]; lia. }
  assert (Hb0 : (0 <= zb)%Z).
  { apply Hb. destruct (risk_tolerance user_profile);
      unfold basic_allocation; cbn [snd]; lia. }
  exists (VDict d). eexists. eexists.
  split; [exact Hd|]. split; [exact Hps|].
  pose proof (tenths_sum zs zb Hsum) as H100.
  assert (Qs : (0 <= Qred (inject_Z zs / 10))%Q).
  { rewrite Qred_correct. apply Qle_shift_div_l; [reflexivity|].
    unfold Qle, inject_Z. simpl. lia. }
  assert (Qb : (0 <= Qred (inject_Z zb / 10))%Q).
  { rewrite Qred_correct. apply Qle_shift_div_l; [reflexivity|].
    unfold Qle, inject_Z. simpl. lia. }
  split; [split; lra|]. split; [split; lra|]. exact H100.
Qed.

Lemma fallback_allocations_in_range_witness :
  exists strategy stocks bonds,
    _generate_fallback_strategy scenario_profile = Some strategy
    /\ percentages_of strategy = Some [stocks; bonds]
    /\ (0 <= stocks <= 100)%Q /\ (0 <= bonds <= 100)%Q
    /\ (stocks + bonds == 100)%Q.
Proof.
  apply (fallback_allocations_in_range scenario_profile).
  repeat split; simpl; try lia; discriminate.
Defined.

End FallbackStrategy.

(** ** The validator, the fallback strategy and the router's check *)

Section ValidatorComposition.

Import FinancialAgentService ValidatorFrame ValidatorArith DataValidator.

Lemma percentages_of_inv (strategy : value) (ps : list Q) :
  percentages_of strategy = Some ps ->
  exists d recs, strategy = VDict d
    /\ dict_get "investment_recommendations" d = Some (VList recs)
    /\ all_some (map percentage_of recs) = Some ps.
Proof.
  unfold percentages_of. destruct strategy; simpl; try discriminate.
  destruct (dict_get "investment_recommendations" d) as [[| | | | |recs|]|]
    eqn:Hget; try discriminate.
  intros H. now exists d, recs.
Qed.

(** The router's check on recommendations with finite percentages. *)
Lemma validate_allocation_percentages_finite (recs : list value) (ps : list Q) :
  all_some (map percentage_of recs) = Some ps ->
  validate_allocation_percentages (VList recs)
  = Qle_bool (Qabs (Qsum ps - 100)) 1.
Proof.
  intros Hps.
  destruct (sum_from_finite recs ps (NInt 0) 0 Hps eq_refl)
    as (total & t & Hsum & Ht & Htq).
  unfold validate_allocation_percentages, total_allocation. simpl.
  rewrite Hsum.
  assert (E : num_abs (num_sub total (NFloat (Fin 100)))
              = NFloat (Fin (Qabs (Qred (t + Qred (- 100)))))).
  { destruct total; cbn [to_float of_Z] in Ht; subst;
      try injection Ht as <-; reflexivity. }
  rewrite E. cbn [num_le to_float fle].
  apply Qleb_comp; [|reflexivity].
  apply Qabs_wd. rewrite !Qred_correct. lra.
Qed.

(** The router's check accepts finite percentages within the tolerance. *)
Lemma percentages_within_pass (strategy : value) (ps : list Q) :
  percentages_of strategy = Some ps ->
  (Qabs (Qsum ps - 100) <= 1)%Q ->
  exists recs,
    py_getitem strategy "investment_recommendations" = Some recs
    /\ validate_allocation_percentages recs = true.
Proof.
  intros Hps Hsum.
  destruct (percentages_of_inv strategy ps Hps) as (d & recs & -> & Hget & Hall).
  exists (VList recs). split; [exact Hget|].
  rewrite (validate_allocation_percentages_finite recs ps Hall).
  now apply Qle_bool_iff.
Qed.

Lemma fallback_percentages (user_profile : UserProfile) :
  exists strategy ps,
    _generate_fallback_strategy user_profile = Some strategy
    /\ percentages_of strategy = Some ps
    /\ (Qabs (Qsum ps - 100) <= 1)%Q.
Proof.
  destruct (fallback_facts user_profile)
    as (d & zs & zb & Hd & Hps & Hsum & _).
  exists (VDict d). eexists. split; [exact Hd|]. split; [exact Hps|].
  assert (E : (Qsum [Qred (inject_Z zs / 10); Qred (inject_Z zb / 10)] - 100
               == 0)%Q).
  { simpl. pose proof (tenths_sum zs zb Hsum). lra. }
  rewrite E. apply Qle_bool_iff. reflexivity.
Qed.

(** A strategy that satisfies the invariants is returned as it is. *)
Lemma satisfies_invariants_unchanged (strategy : value)
  (user_profile : UserProfile) :
  satisfies_invariants strategy user_profile ->
  _validate_strategy strategy user_profile = strategy.
Proof.
  intros [(ps & Hps & Hsum) Hfund].
  unfold _validate_strategy.
  destruct (adjust_allocations_finite strategy ps Hps)
    as (d & recs & -> & _ & _ & [[_ ->] | [Hout _]]); [|lra].
  unfold percentages_of in Hps.
  destruct (monthly_expenses user_profile) as [[e| | |]|] eqn:He;
    try contradiction.
  - destruct (Qlt_le_dec 0 e) as [Hpos | Hneg].
    + destruct Hfund as [H0 | (t & Ht & Hlo & Hhi)]; [lra|].
      unfold emergency_fund_of in Ht. simpl in Ht.
      destruct (dict_get "emergency_fund_target" d) as [x|] eqn:Hx;
        [|discriminate].
      assert (Hget : py_get (VDict d) "emergency_fund_target" (VInt 0) = Some x)
        by (simpl; now rewrite Hx).
      destruct (clamp_emergency_fund_finite d user_profile e t x He Hpos Hget Ht)
        as (lo & hi & Hloq & Hhiq & [[H _] | [[H _] | [_ H]]]);
        [lra | lra | exact H].
    + assert (H0 : (e == 0)%Q).
      { destruct Hfund as [H0 | (t & _ & Hlo & Hhi)]; [exact H0|].
        apply Qle_antisym; lra. }
      unfold clamp_emergency_fund. rewrite He. simpl.
      apply Qeq_eq_bool in H0. now rewrite H0.
  - unfold clamp_emergency_fund. now rewrite He.
Qed.










Lemma fallback_emergency_fund_known (user_profile : UserProfile) (e : Q) :
  monthly_expenses user_profile = Some (Fin e) -> (0 < e)%Q ->
  exists t, finite (fallback_emergency_fund user_profile) = Some t
            /\ (t == 6 * e)%Q.
Proof.
  intros He Hpos. unfold fallback_emergency_fund. rewrite He.
  assert (Ht : ftruth (Fin e) = true).
  { simpl. destruct (Qeq_bool e 0) eqn:E; [|reflexivity].
    apply Qeq_bool_eq in E. lra. }
  rewrite Ht. destruct (times_finite e 6) as (b & Hb & Hbq).
  rewrite Hb. exists b. split; [reflexivity | exact Hbq].
Qed.

Lemma fallback_satisfies_invariants (user_profile : UserProfile) (d : dict) :
  expenses_nonnegative user_profile ->
  _generate_fallback_strategy user_profile = Some (VDict d) ->
  satisfies_invariants (VDict d) user_profile.
Proof.
  intros He Hd.
  destruct (fallback_facts user_profile)
    as (d0 & zs & zb & Hd0 & Hps & Hsum & Hfund & _).
  rewrite Hd in Hd0. injection Hd0 as <-.
  split.
  - eexists. split; [exact Hps|].
    assert (E : (Qsum [Qred (inject_Z zs / 10); Qred (inject_Z zb / 10)] - 100
                 == 0)%Q).
    { simpl. pose proof (tenths_sum zs zb Hsum). lra. }
    rewrite E. apply Qle_bool_iff. reflexivity.
  - unfold expenses_nonnegative in He.
    destruct (monthly_expenses user_profile) as [[e| | |]|] eqn:Hexp;
      try contradiction; [|exact I].
    destruct (Qlt_le_dec 0 e) as [Hpos | Hneg].
    + right.
      destruct (fallback_emergency_fund_known user_profile e Hexp Hpos)
        as (t & Ht & Htq).
      exists t. unfold emergency_fund_of. simpl. rewrite Hfund.
      split; [exact Ht|]. split; lra.
    + left. apply Qle_antisym; assumption.
Qed.

(** X6: the fallback strategy needs no validation: for a profile whose monthly
    expenses are absent or not negative the validator returns it as it
    is. *)
Theorem fallback_strategy_is_valid (user_profile : UserProfile) :
  expenses_nonnegative user_profile ->
  exists strategy,
    _generate_fallback_strategy user_profile = Some strategy
    /\ _validate_strategy strategy user_profile = strategy.
Proof.
  intros He.
  destruct (generate_fallback_strategy_total user_profile) as (d & Hd).
  exists (VDict d). split; [exact Hd|].
  apply satisfies_invariants_unchanged.
  now apply fallback_satisfies_invariants.
Qed.

Lemma fallback_strategy_is_valid_witness :
  exists strategy,
    _generate_fallback_strategy scenario_profile = Some strategy
    /\ _validate_strategy strategy scenario_profile = strategy.
Proof.
  apply (fallback_strategy_is_valid scenario_profile).
  unfold expenses_nonnegative. simpl. discriminate.
Defined.

(** X7: the fallback strategy of every profile passes the allocation check of
    the strategy router. *)
Theorem fallback_strategy_passes_check (user_profile : UserProfile) :
  exists strategy recs,
    _generate_fallback_strategy user_profile = Some strategy
    /\ py_getitem strategy "investment_recommendations" = Some recs
    /\ validate_allocation_percentages recs = true.
Proof.
  destruct (fallback_percentages user_profile) as (strategy & ps & Hs & Hps & Hsum).
  destruct (percentages_within_pass strategy ps Hps Hsum) as (recs & Hget & Hok).
  now exists strategy, recs.
Qed.

End ValidatorComposition.

(** ** The helpers of the routers *)

Module StringFacts.

Import Text SecurityUtils.

Local Open Scope nat_scope.

Lemma all_chars_remove (p : ascii -> bool) (s : string) :
  all_chars (fun c => negb (p c)) (remove p s) = true.
Proof.
  induction s as [|c s IH]; simpl; [reflexivity|].
  destruct (p c) eqn:E; simpl; [exact IH | now rewrite E].
Qed.

Lemma remove_unchanged (p : ascii -> bool) (s : string) :
  all_chars (fun c => negb (p c)) s = true -> remove p s = s.
Proof.
  induction s as [|c s IH]; simpl; [reflexivity|].
  intros H. apply andb_true_iff in H as [Hc Hs].
  apply negb_true_iff in Hc. rewrite Hc. now rewrite IH.
Qed.


Lemma all_chars_take (p : ascii -> bool) (n : nat) :
  forall s, all_chars p s = true -> all_chars p (take n s) = true.
Proof.
  induction n as [|n IH]; intros [|c s]; simpl; auto.
  intros H. apply andb_true_iff in H as [Hc Hs]. now rewrite Hc, IH.
Qed.

Lemma take_length (n : nat) : forall s, String.length (take n s) <= n.
Proof.
  induction n as [|n IH]; intros [|c s]; simpl; try lia.
  specialize (IH s). lia.
Qed.

Lemma all_chars_lstrip (p : ascii -> bool) (s : string) :
  all_chars p s = true -> all_chars p (lstrip s) = true.
Proof.
  induction s as [|c s IH]; simpl; [reflexivity|].
  intros H. destruct (is_space c); [|exact H].
  apply andb_true_iff in H as [_ Hs]. auto.
Qed.

Lemma all_chars_rstrip (p : ascii -> bool) (s : string) :
  all_chars p s = true -> all_chars p (rstrip s) = true.
Proof.
  induction s as [|c s IH]; simpl; [reflexivity|].
  intros H. apply andb_true_iff in H as [Hc Hs].
  destruct (is_empty (rstrip s) && is_space c); simpl; [reflexivity|].
  now rewrite Hc, IH.
Qed.

Lemma all_chars_strip (p : ascii -> bool) (s : string) :
  all_chars p s = true -> all_chars p (strip s) = true.
Proof.
  intros H. unfold strip. now apply all_chars_rstrip, all_chars_lstrip.
Qed.

Lemma lstrip_length (s : string) : String.length (lstrip s) <= String.length s.
Proof.
  induction s as [|c s IH]; simpl; [lia|].
  destruct (is_space c); simpl; lia.
Qed.

Lemma rstrip_length (s : string) : String.length (rstrip s) <= String.length s.
Proof.
  induction s as [|c s IH]; simpl; [lia|].
  destruct (is_empty (rstrip s) && is_space c); simpl; lia.
Qed.

Lemma strip_length (s : string) : String.length (strip s) <= String.length s.
Proof.
  unfold strip. pose proof (rstrip_length (lstrip s)).
  pose proof (lstrip_length s). lia.
Qed.

Lemma lstrip_starts_clean (s : string) : starts_clean (lstrip s).
Proof.
  induction s as [|c s IH]; simpl; [exact I|].
  destruct (is_space c) eqn:E; [exact IH | exact E].
Qed.

Lemma rstrip_starts_clean (s : string) :
  starts_clean s -> starts_clean (rstrip s).
Proof.
  destruct s as [|c s]; simpl; [auto|].
  intros H. rewrite H, andb_false_r. exact H.
Qed.

Lemma lstrip_unchanged (s : string) : starts_clean s -> lstrip s = s.
Proof.
  destruct s as [|c s]; simpl; [auto|]. now intros ->.
Qed.

Lemma rstrip_idempotent (s : string) : rstrip (rstrip s) = rstrip s.
Proof.
  induction s as [|c s IH]; simpl; [reflexivity|].
  destruct (is_empty (rstrip s) && is_space c) eqn:E; [reflexivity|].
  simpl. now rewrite IH, E.
Qed.

Lemma strip_idempotent (s : string) : strip (strip s) = strip s.
Proof.
  unfold strip.
  rewrite (lstrip_unchanged (rstrip (lstrip s)))
    by apply rstrip_starts_clean, lstrip_starts_clean.
  apply rstrip_idempotent.
Qed.

End StringFacts.

Section Helpers.

Import Text SecurityUtils DocumentProcessor DataValidator StringFacts.

(** X8: what [sanitize_input] returns holds no angle bracket and no quote, has
    at most 10000 characters and neither starts nor ends with white
    space. *)
Theorem sanitize_input_safe (input_text : value) :
  all_chars (fun c => negb (is_dangerous c)) (sanitize_input input_text) = true
  /\ (String.length (sanitize_input input_text) <= max_length)%nat
  /\ strip (sanitize_input input_text) = sanitize_input input_text.
Proof.
  unfold sanitize_input. destruct input_text; try (repeat split; apply Nat.le_0_l).
  pose proof (all_chars_remove is_dangerous s) as Hsafe.
  destruct (Nat.ltb max_length (String.length (remove is_dangerous s))) eqn:E.
  - split; [|split].
    + now apply all_chars_strip, all_chars_take.
    + pose proof (strip_length (take max_length (remove is_dangerous s))).
      pose proof (take_length max_length (remove is_dangerous s)). lia.
    + apply strip_idempotent.
  - apply Nat.ltb_ge in E. split; [|split].
    + now apply all_chars_strip.
    + pose proof (strip_length (remove is_dangerous s)). lia.
    + apply strip_idempotent.
Qed.

(** X9: sanitizing a sanitized text changes nothing. *)
Theorem sanitize_input_idempotent (input_text : value) :
  sanitize_input (VStr (sanitize_input input_text)) = sanitize_input input_text.
Proof.
  destruct (sanitize_input_safe input_text) as (Hsafe & Hlen & Hstrip).
  set (clean := sanitize_input input_text) in *.
  unfold sanitize_input at 1.
  rewrite (remove_unchanged is_dangerous clean Hsafe).
  replace (Nat.ltb max_length (String.length clean)) with false
    by (symmetry; apply Nat.ltb_ge; exact Hlen).
  exact Hstrip.
Qed.









(** X11: which profiles the schema admits the strategy router still rejects:
    [validate_user_profile] reports an error for the profile exactly when
    its annual income is zero or its list of goals is empty, and then
    about these two fields only. *)
Theorem schema_valid_profile_errors (user_profile : UserProfile) :
  UserProfile_valid user_profile ->
  validate_user_profile (UserProfile_dict user_profile)
  = Some ((if ftruth (annual_income user_profile) then []
           else [("annual_income", ["Annual income must be a positive number"])])
          ++ match financial_goals user_profile with
             | [] => [("financial_goals",
                        ["At least one financial goal must be specified"])]
             | _ :: _ => []
             end)%list.
Proof.
  intros (Hage & Hincome & Hnan & Hhorizon).
  unfold validate_user_profile, UserProfile_dict. cbn [dict_get String.eqb Ascii.eqb Bool.eqb].
  assert (Eage : negb (py_truth (VInt (age user_profile)))
                 || negb (is_int (VInt (age user_profile)))
                 || lt_literal (VInt (age user_profile)) 18
                 || gt_literal (VInt (age user_profile)) 100 = false).
  { unfold lt_literal, gt_literal, num_gt. simpl.
    destruct (Z.eqb_spec (age user_profile) 0); [lia|]. simpl.
    destruct (Z.ltb_spec (age user_profile) 18); [lia|].
    destruct (Z.ltb_spec 100 (age user_profile)); [lia|]. reflexivity. }
  assert (Ehorizon : negb (py_truth (VInt (time_horizon user_profile)))
                     || negb (is_int (VInt (time_horizon user_profile)))
                     || lt_literal (VInt (time_horizon user_profile)) 1 = false).
  { unfold lt_literal. simpl.
    destruct (Z.eqb_spec (time_horizon user_profile) 0); [lia|]. simpl.
    destruct (Z.ltb_spec (time_horizon user_profile) 1); [lia|]. reflexivity. }
  assert (Erisk : negb (py_truth (VStr (RiskLevel_value (risk_tolerance user_profile))))
                  || negb (existsb
                             (fun level =>
                                is_str level
                                  (VStr (RiskLevel_value (risk_tolerance user_profile))))
                             ["conservative"; "moderate"; "aggressive"]) = false).
  { destruct (risk_tolerance user_profile); reflexivity. }
  assert (Eincome : negb (py_truth (VFloat (annual_income user_profile)))
                    || negb (is_int_or_float (VFloat (annual_income user_profile)))
                    || lt_literal (VFloat (annual_income user_profile)) 0
                    = negb (ftruth (annual_income user_profile))).
  { unfold lt_literal. cbn [as_number is_int_or_float py_truth num_lt to_float of_Z negb].
    change (of_Z 0) with (Fin 0). rewrite Hincome.
    now rewrite !orb_false_r. }
  assert (Egoals : negb (py_truth (VList (map VStr (financial_goals user_profile))))
                   || negb (is_list (VList (map VStr (financial_goals user_profile))))
                   || Nat.eqb (list_len (VList (map VStr (financial_goals user_profile)))) 0
                   = match financial_goals user_profile with
                     | [] => true
                     | _ :: _ => false
                     end).
  { destruct (financial_goals user_profile); reflexivity. }
  rewrite Eage, Eincome, Erisk, Ehorizon, Egoals.
  unfold report.
  destruct (ftruth (annual_income user_profile));
    destruct (financial_goals user_profile); reflexivity.
Qed.

Lemma schema_valid_profile_errors_witness :
  validate_user_profile (UserProfile_dict scenario_profile) = Some []
  /\ validate_user_profile
       (UserProfile_dict
          {| age := 35;
             annual_income := Fin 0;
             investment_experience := "none";
             risk_tolerance := CONSERVATIVE;
             financial_goals := [];
             time_horizon := 5;
             current_assets := None;
             monthly_expenses := None |})
     = Some [("annual_income", ["Annual income must be a positive number"]);
             ("financial_goals",
               ["At least one financial goal must be specified"])].
Proof.
  split.
  - apply (schema_valid_profile_errors scenario_profile).
    repeat split; simpl; try lia; discriminate.
  - apply (schema_valid_profile_errors
             {| age := 35;
                annual_income := Fin 0;
                investment_experience := "none";
                risk_tolerance := CONSERVATIVE;
                financial_goals := [];
                time_horizon := 5;
                current_assets := None;
                monthly_expenses := None |}).
    repeat split; simpl; try lia; discriminate.
Defined.

End Helpers.

(** ** The lists and the defaults of the compliance fallback parser *)

Module ParserFacts.

Import Text MatcherFacts RAGService.














End ParserFacts.

Section ParserExtras.

Import Text MatcherFacts RAGService ParserFacts.




End ParserExtras.

(** ** The strategy pipeline and the router's check *)

Section StrategyPipeline.

Import FinancialAgentService ValidatorFrame ValidatorArith DataValidator.







End StrategyPipeline.

(** ** Runs of periods and the masking of sensitive fields *)

Module PeriodFacts.

Import Text DocumentProcessor.

Local Open Scope nat_scope.

Lemma is_prefix_rstrip (w s : string) :
  is_prefix w (rstrip s) = true -> is_prefix w s = true.
Proof.
  revert w. induction s as [|c s IH]; intros w; simpl; [auto|].
  destruct (is_empty (rstrip s) && is_space c).
  - destruct w; simpl; [reflexivity | discriminate].
  - destruct w as [|a w]; simpl; [reflexivity|].
    intros H. apply andb_true_iff in H as [Ha Hw].
    now rewrite Ha, (IH w Hw).
Qed.

Lemma is_substring_rstrip (w s : string) :
  is_substring w (rstrip s) = true -> is_substring w s = true.
Proof.
  induction s as [|c s IH]; [auto|].
  intros H.
  assert (Hcases : is_prefix w (rstrip (String c s)) = true
                   \/ is_substring w (rstrip s) = true).
  { simpl in H |- *.
    destruct (is_empty (rstrip s) && is_space c); simpl in H.
    - rewrite orb_false_r in H. now left.
    - apply orb_true_iff in H as [H | H]; [now left | now right]. }
  destruct Hcases as [Hp | Hs].
  - apply is_prefix_rstrip in Hp. cbn [is_substring]. now rewrite Hp.
  - cbn [is_substring]. rewrite (IH Hs). apply orb_true_r.
Qed.

Lemma is_substring_lstrip (w s : string) :
  is_substring w (lstrip s) = true -> is_substring w s = true.
Proof.
  induction s as [|c s IH]; [auto|].
  cbn [lstrip]. destruct (is_space c); [|auto].
  intros H. cbn [is_substring]. rewrite (IH H). apply orb_true_r.
Qed.

Lemma is_substring_strip (w s : string) :
  is_substring w (strip s) = true -> is_substring w s = true.
Proof.
  intros H. now apply is_substring_lstrip, is_substring_rstrip.
Qed.

(** After [seen] periods were written the rest of the run holds at most
    [3 - seen]. *)
Lemma collapse_periods_prefix (s : string) :
  forall seen k, seen <= 3 -> 4 - seen <= k ->
    is_prefix (points k) (collapse_periods seen s) = false.
Proof.
  induction s as [|c s IH]; intros seen k Hseen Hk.
  - destruct k; [lia | reflexivity].
  - cbn [collapse_periods]. destruct (is_point c) eqn:Ec.
    + destruct (Nat.ltb_spec seen 3) as [Hlt | Hge].
      * destruct k as [|k]; [lia|]. cbn [points is_prefix].
        rewrite (IH (S seen) k) by lia. apply andb_false_r.
      * apply IH; lia.
    + destruct k as [|k]; [lia|]. cbn [points is_prefix].
      unfold is_point in Ec. rewrite Ascii.eqb_sym, Ec. reflexivity.
Qed.

Lemma collapse_periods_no_run (s : string) :
  forall seen, seen <= 3 ->
    is_substring (points 4) (collapse_periods seen s) = false.
Proof.
  induction s as [|c s IH]; intros seen Hseen; [reflexivity|].
  pose proof (collapse_periods_prefix (String c s) seen 4 Hseen) as Hp.
  specialize (Hp ltac:(lia)).
  cbn [collapse_periods] in Hp |- *.
  destruct (is_point c).
  - destruct (Nat.ltb_spec seen 3) as [Hlt | Hge].
    + cbn [is_substring]. rewrite Hp. apply IH. lia.
    + now apply IH.
  - cbn [is_substring]. rewrite Hp. apply IH. lia.
Qed.

End PeriodFacts.

Module MaskingFacts.

Import SecurityUtils.

Local Open Scope nat_scope.

Lemma stars_length (n : nat) : String.length (stars n) = n.
Proof. induction n; simpl; congruence. Qed.

Lemma all_chars_stars (n : nat) : all_chars is_star (stars n) = true.
Proof. induction n; simpl; auto. Qed.

Lemma take_app (a b : string) : take (String.length a) (a ++ b) = a.
Proof. induction a as [|c a IH]; simpl; [now destruct b | now rewrite IH]. Qed.

Lemma drop_app (a b : string) : Json.drop (String.length a) (a ++ b) = b.
Proof. induction a as [|c a IH]; simpl; [now destruct b | exact IH]. Qed.

Lemma mask_length (text : string) :
  String.length (mask text) = String.length text.
Proof.
  unfold mask. destruct (Nat.ltb_spec 4 (String.length text)) as [H | H].
  - rewrite MatcherFacts.length_app, stars_length, JsonFacts.drop_length. lia.
  - apply stars_length.
Qed.

(** A masked text is masked to itself. *)
Lemma mask_idempotent (text : string) : mask (mask text) = mask text.
Proof.
  unfold mask at 1. rewrite mask_length.
  unfold mask. destruct (Nat.ltb_spec 4 (String.length text)) as [H | H].
  - f_equal.
    rewrite <- (stars_length (String.length text - 4)) at 1.
    apply drop_app.
  - reflexivity.
Qed.

(** What a masked text shows. *)
Lemma mask_shape (text : string) :
  let n := String.length text in
  all_chars is_star (take (n - 4) (mask text)) = true
  /\ (n <= 4 -> all_chars is_star (mask text) = true)
  /\ (4 < n -> Json.drop (n - 4) (mask text) = Json.drop (n - 4) text).
Proof.
  cbv zeta. unfold mask.
  destruct (Nat.ltb_spec 4 (String.length text)) as [H | H].
  - split; [|split].
    + rewrite <- (stars_length (String.length text - 4)) at 1.
      rewrite take_app. apply all_chars_stars.
    + lia.
    + intros _. rewrite <- (stars_length (String.length text - 4)) at 1.
      apply drop_app.
  - split; [|split].
    + replace (String.length text - 4) with 0 by lia. now destruct (stars _).
    + intros _. apply all_chars_stars.
    + lia.
Qed.

Lemma dict_set_keys (k : string) (v x : value) (d : dict) :
  dict_get k d = Some x -> map fst (dict_set k v d) = map fst d.
Proof.
  induction d as [|[k' v'] d IH]; simpl; [discriminate|].
  destruct (String.eqb k k'); [reflexivity|].
  intros H. simpl. now rewrite IH.
Qed.

End MaskingFacts.

Section CleanTextPeriods.

Import Text DocumentProcessor PeriodFacts.

(** X16: a cleaned text never holds four periods in a row: every run of
    three or more became exactly three. *)
Theorem clean_text_periods (text : string) :
  is_substring "...." (clean_text text) = false.
Proof.
  destruct (is_substring "...." (clean_text text)) eqn:E; [|reflexivity].
  unfold clean_text in E. apply is_substring_strip in E.
  change "...." with (points 4) in E.
  rewrite collapse_periods_no_run in E by lia. discriminate E.
Qed.

End CleanTextPeriods.

Section Masking.

Import SecurityUtils MaskingFacts.

(** Python's [str], of which the proofs use one fact: the text of a
    string is the string. *)
Variable str : value -> string.
Hypothesis str_of_str : forall s, str (VStr s) = s.

Lemma mask_field_other (d : dict) (field k : string) :
  k <> field -> dict_get k (mask_field str d field) = dict_get k d.
Proof.
  intros Hne. unfold mask_field.
  destruct (dict_get field d); [|reflexivity].
  now apply dict_get_set_other.
Qed.

Lemma mask_field_keys (d : dict) (field : string) :
  map fst (mask_field str d field) = map fst d.
Proof.
  unfold mask_field. destruct (dict_get field d) eqn:E; [|reflexivity].
  exact (dict_set_keys field _ v d E).
Qed.

Lemma mask_field_masked (d : dict) (field k text : string) :
  dict_get k d = Some (VStr (mask text)) ->
  dict_get k (mask_field str d field) = Some (VStr (mask text)).
Proof.
  intros H. destruct (String.eqb_spec k field) as [->|Hne].
  - unfold mask_field. rewrite H, dict_get_set_same, str_of_str.
    now rewrite mask_idempotent.
  - now rewrite mask_field_other.
Qed.

Lemma fold_masked (fields : list string) :
  forall d k text,
    dict_get k d = Some (VStr (mask text)) ->
    dict_get k (fold_left (mask_field str) fields d) = Some (VStr (mask text)).
Proof.
  induction fields as [|f fields IH]; intros d k text H; simpl; [exact H|].
  apply IH. now apply mask_field_masked.
Qed.

Lemma fold_field (fields : list string) :
  forall d field v,
    In field fields -> dict_get field d = Some v ->
    dict_get field (fold_left (mask_field str) fields d) = Some (VStr (mask (str v))).
Proof.
  induction fields as [|f fields IH]; intros d field v Hin Hget; [contradiction|].
  simpl. destruct (String.eqb_spec field f) as [<-|Hne].
  - apply fold_masked. unfold mask_field. rewrite Hget. apply dict_get_set_same.
  - destruct Hin as [->|Hin]; [contradiction|].
    apply IH; [exact Hin|]. now rewrite mask_field_other.
Qed.

Lemma fold_frame (fields : list string) :
  forall d,
    same_outside fields d (fold_left (mask_field str) fields d)
    /\ map fst (fold_left (mask_field str) fields d) = map fst d.
Proof.
  induction fields as [|f fields IH]; intros d; simpl.
  - split; [now intros k _ | reflexivity].
  - destruct (IH (mask_field str d f)) as [Hsame Hkeys]. split.
    + intros k Hk. rewrite Hsame by (intros Hin; apply Hk; now right).
      apply mask_field_other. intros ->. apply Hk. now left.
    + now rewrite Hkeys, mask_field_keys.
Qed.

(** X17: a sensitive field that is present comes out as a text of the
    length of the text of its value, of which everything but the last four
    characters is a star; a text of at most four characters is hidden
    entirely, a longer one keeps its last four. *)
Theorem masked_field_shows_last_four (data : dict)
  (sensitive_fields : option (list string)) (field : string) (v : value) :
  In field (masked_fields sensitive_fields) ->
  dict_get field data = Some v ->
  exists masked,
    dict_get field (mask_sensitive_data str data sensitive_fields)
    = Some (VStr masked)
    /\ String.length masked = String.length (str v)
    /\ all_chars is_star (take (String.length masked - 4)%nat masked) = true
    /\ ((String.length masked <= 4)%nat -> all_chars is_star masked = true)
    /\ ((4 < String.length masked)%nat ->
        Json.drop (String.length masked - 4)%nat masked
        = Json.drop (String.length masked - 4)%nat (str v)).
Proof.
  intros Hin Hget. exists (mask (str v)).
  split.
  - unfold mask_sensitive_data.
    exact (fold_field (masked_fields sensitive_fields) data field v Hin Hget).
  - rewrite mask_length.
    destruct (mask_shape (str v)) as (H1 & H2 & H3). auto.
Qed.

(** X18: masking touches the sensitive fields only: every other field
    keeps its value, and no field is added, removed or moved. *)
Theorem mask_sensitive_data_frame (data : dict)
  (sensitive_fields : option (list string)) :
  same_outside (masked_fields sensitive_fields) data
    (mask_sensitive_data str data sensitive_fields)
  /\ map fst (mask_sensitive_data str data sensitive_fields) = map fst data.
Proof.
  unfold mask_sensitive_data.
  exact (fold_frame (masked_fields sensitive_fields) data).
Qed.

End Masking.

Lemma masked_field_shows_last_four_witness :
  exists masked,
    dict_get "ssn" (SecurityUtils.mask_sensitive_data sample_str sample_account None)
    = Some (VStr masked)
    /\ String.length masked = String.length (sample_str (VStr "123-45-6789"))
    /\ all_chars is_star (SecurityUtils.take (String.length masked - 4)%nat masked)
       = true
    /\ ((String.length masked <= 4)%nat -> all_chars is_star masked = true)
    /\ ((4 < String.length masked)%nat ->
        Json.drop (String.length masked - 4)%nat masked
        = Json.drop (String.length masked - 4)%nat
            (sample_str (VStr "123-45-6789"))).
Proof.
  apply (masked_field_shows_last_four sample_str (fun s => eq_refl)
           sample_account None "ssn" (VStr "123-45-6789")).
  - simpl. auto.
  - reflexivity.
Defined.
